(** * metashield: the metadata extractor and the privacy stripper

    A shallow embedding of [metadata_extractor/app/extractor.py].

    The Python functions are written in a small exception monad ([res]) and,
    where the source fills dictionaries step by step inside a [try] block, in
    a state-and-exception monad ([M]) whose state survives a raise, as the
    partially filled [info] dictionary does in Python.

    The decoders the module calls into (python-magic, Pillow, exifread,
    PyPDF2, python-docx, mutagen) are collaborators: they are the fields of
    the record [Libs], and every theorem holds for all of them. *)

From Stdlib Require Import ZArith String Ascii List Bool Lia.
From Stdlib Require Import Floats Uint63.
From stdpp Require Import base option gmap strings pretty.

Open Scope Z_scope.

(** ** Python values *)

Module Py.

(** [bytes] objects. *)
Abbreviation bytes := (list Byte.byte).

(** An exception object: its class and the text [str(e)] gives. Only
    subclasses of [Exception] are modelled, the ones [except Exception]
    catches. *)
Record exn := mk_exn { exn_class : string; exn_msg : string }.

Definition str_exn (e : exn) : string := exn_msg e.

Definition ZeroDivisionError := mk_exn "ZeroDivisionError" "division by zero".
Definition OverflowError :=
  mk_exn "OverflowError" "integer division result too large for a float".
Definition AttributeError (ty attr : string) :=
  mk_exn "AttributeError"
         ("'" +:+ ty +:+ "' object has no attribute '" +:+ attr +:+ "'").
Definition ValueError (msg : string) := mk_exn "ValueError" msg.
Definition TypeError (msg : string) := mk_exn "TypeError" msg.
Definition RuntimeError (msg : string) := mk_exn "RuntimeError" msg.

(** The outcome of evaluating an expression or running a statement. *)
Inductive res (A : Type) : Type :=
| Ok (a : A)
| Raise (e : exn).
Arguments Ok {A} a.
Arguments Raise {A} e.

Definition res_bind {A B} (r : res A) (k : A -> res B) : res B :=
  match r with
  | Ok a => k a
  | Raise e => Raise e
  end.

Definition raises {A} (r : res A) : Prop := exists e, r = Raise e.
Definition returns {A} (r : res A) : Prop := exists a, r = Ok a.

(** [try: body / except Exception as e: handler(e)] for code without state. *)
Definition res_try {A} (body : res A) (handler : exn -> res A) : res A :=
  match body with
  | Ok a => Ok a
  | Raise e => handler e
  end.

(** Values stored in the report dictionaries. *)
#[warnings="-register-all"]
Inductive pyval :=
| VNone
| VBool (b : bool)
| VInt (n : Z)
| VFloat (x : float)
| VStr (s : string)
| VTuple (l : list pyval)
| VDict (d : gmap string pyval).

Abbreviation dict := (gmap string pyval).

(** [x or default] on an optional string: [None] and [""] are both falsy. *)
Definition str_truthy (o : option string) : bool :=
  match o with
  | Some (String _ _) => true
  | _ => false
  end.

Definition or_default (o : option string) (default : string) : string :=
  match o with
  | Some (String c s) => String c s
  | _ => default
  end.

(** ** Strings *)

(** [s.startswith(p)] *)
Definition startswith (s p : string) : bool := String.prefix p s.

(** [needle in hay] *)
Fixpoint contains (needle hay : string) : bool :=
  String.prefix needle hay
  || match hay with
     | EmptyString => false
     | String _ rest => contains needle rest
     end.

Definition upper_ascii (c : ascii) : ascii :=
  let n := N_of_ascii c in
  if ((97 <=? n) && (n <=? 122))%N then ascii_of_N (n - 32) else c.

(** [s.upper()]. Format names are ASCII; no character outside ASCII
    upper-cases to one of the letters of ["JPEG"] or ["PNG"], so the two
    comparisons of the stripper see what Python's Unicode-aware [upper]
    gives them. *)
Fixpoint upper (s : string) : string :=
  match s with
  | EmptyString => EmptyString
  | String c rest => String (upper_ascii c) (upper rest)
  end.

(** ** Numbers *)

(** [float(z)] for an [int] of at most 53 bits, where it is exact. *)
Definition float_of_int (z : Z) : float :=
  if z <? 0 then (- of_uint63 (Uint63.of_Z (- z)))%float
  else of_uint63 (Uint63.of_Z z).

Definition SF_of_int (z : Z) : spec_float :=
  match z with
  | Z0 => S754_zero false
  | Zpos p => S754_finite false p 0
  | Zneg p => S754_finite true p 0
  end.

Definition fits_mantissa (z : Z) : bool := Z.abs z <=? 2 ^ 53.

(** [a / b] on two [int]s (true division). Python raises on a zero divisor;
    when both operands fit a double's mantissa the result is the IEEE
    quotient of the converted operands; otherwise it is the exact quotient
    rounded once to the nearest double, and an [OverflowError] when that
    is not finite. *)
Definition int_truediv (a b : Z) : res float :=
  if b =? 0 then Raise ZeroDivisionError
  else if fits_mantissa a && fits_mantissa b
       then Ok (float_of_int a / float_of_int b)%float
       else
         let q := SF2Prim (SFdiv prec emax (SF_of_int a) (SF_of_int b)) in
         if is_infinity q then Raise OverflowError else Ok q.

(** Unary minus on the result of the coordinate conversion, a [float] or
    [None]. *)
Definition neg (v : option float) : res (option float) :=
  match v with
  | Some x => Ok (Some (- x)%float)
  | None => Raise (TypeError "bad operand type for unary -: 'NoneType'")
  end.

Definition float_or_none (v : option float) : pyval :=
  match v with
  | Some x => VFloat x
  | None => VNone
  end.

Definition str_or_none (v : option string) : pyval :=
  match v with
  | Some s => VStr s
  | None => VNone
  end.

(** ** Statements that mutate local dictionaries

    [M St A] runs on the mutable locals [St]; a raise leaves the state as
    the statements before it made it. *)
Definition M (St A : Type) : Type := St -> St * res A.

Section StateExn.
Context {St : Type}.

Definition ret {A} (a : A) : M St A := fun s => (s, Ok a).
Definition bind {A B} (m : M St A) (k : A -> M St B) : M St B :=
  fun s =>
    match m s with
    | (s', Ok a) => k a s'
    | (s', Raise e) => (s', Raise e)
    end.
Definition lift {A} (r : res A) : M St A := fun s => (s, r).
Definition modify (f : St -> St) : M St unit := fun s => (f s, Ok tt).
Definition gets {A} (f : St -> A) : M St A := fun s => (s, Ok (f s)).
Definition when (b : bool) (m : M St unit) : M St unit :=
  if b then m else ret tt.

(** [try: body / except Exception as e: handler e] *)
Definition try_except {A} (body : M St A) (handler : exn -> M St A)
  : M St A :=
  fun s =>
    match body s with
    | (s', Ok a) => (s', Ok a)
    | (s', Raise e) => handler e s'
    end.
End StateExn.

#[global] Instance res_mret : MRet res := fun _ a => Ok a.
#[global] Instance res_mbind : MBind res := fun _ _ k r => res_bind r k.
#[global] Instance M_mret {St} : MRet (M St) := fun _ a => ret a.
#[global] Instance M_mbind {St} : MBind (M St) := fun _ _ k m => bind m k.

End Py.

(** ** The collaborators *)

Module Extractor.
Import Py.

(** *** exifread *)

(** One element of a tag's [values] list: a [Ratio] (a fraction with the
    properties [num] and [den]) for the rational field types, a plain
    [int] for the byte, short and long ones. *)
Inductive tag_item :=
| Ratio (num den : Z)
| Int (n : Z).

(** [IfdTag.values]: a [str] for an ASCII field, a list otherwise. *)
Inductive tag_values :=
| Text (s : string)
| Items (l : list tag_item).

(** An [IfdTag]; [str(tag)] is its [printable]. An [IfdTag] defines neither
    [__bool__] nor [__len__], so every tag object is truthy. The raw bytes
    exifread stores under ["JPEGThumbnail"] appear here by their [str()],
    the only thing the extractor takes from them. *)
Record IfdTag := { printable : string; values : tag_values }.

(** *** Pillow *)

Record Image := {
  img_format : option string;
  img_size : Z * Z;
  img_mode : string;
  img_info : dict;
  img_pixels : bytes
}.

Definition set_img_info (img : Image) (d : dict) : Image :=
  {| img_format := img_format img; img_size := img_size img;
     img_mode := img_mode img; img_info := d; img_pixels := img_pixels img |}.

(** The keyword arguments of [Image.save]. *)
Record save_params := {
  save_format : string;
  save_quality : option Z;
  save_optimize : bool
}.

(** *** PyPDF2, python-docx, mutagen *)

(** A [PdfReader]: [len(reader.pages)] and [reader.metadata] are computed
    when asked for and may raise. *)
Record PdfReader_obj := {
  pdf_num_pages : res Z;
  pdf_metadata : res (option dict)
}.

(** [doc.core_properties]; the two dates are [None] or a [datetime], kept
    by its [str()]. *)
Record CoreProperties := {
  author : string;
  title : string;
  created : option string;
  modified : option string
}.

(** What [MutagenFile] returns when it recognises the file: [bool(audio)],
    [audio.tags] and [getattr(audio.info, "length", None)]. *)
Record AudioFile := {
  audio_truthy : bool;
  audio_tags : option dict;
  audio_length : option float
}.

(** The decoders, as the module calls them. [magic_from_buffer] is
    [magic.Magic(mime=True).from_buffer], declared to return a [str];
    [MutagenFile] stands for writing the bytes to the temporary file and
    calling [MutagenFile(t.name)] on it; [Document] for opening the document
    and reading its [core_properties]; [str_other] is the interpreter's
    [str()] on numbers, tuples and dictionaries. *)
Record Libs := {
  magic_from_buffer : bytes -> string;
  Image_open : bytes -> res Image;
  Image_copy : Image -> res Image;
  Image_convert : Image -> string -> res Image;
  Image_save : Image -> save_params -> res bytes;
  process_file : bytes -> res (gmap string IfdTag);
  PdfReader : bytes -> res PdfReader_obj;
  Document : bytes -> res CoreProperties;
  MutagenFile : bytes -> res (option AudioFile);
  str_other : pyval -> string
}.

(** ** extractor.py *)

(** [str(x)] of [None] or a [datetime]. *)
Definition str_date (d : option string) : string := default "None" d.

(** [x.num / x.den] *)
Definition quotient (x : tag_item) : res float :=
  match x with
  | Ratio num den => int_truediv num den
  | Int _ => Raise (AttributeError "int" "num")
  end.

Fixpoint quotients (l : list tag_item) : res (list float) :=
  match l with
  | [] => Ok []
  | x :: rest => q ← quotient x; qs ← quotients rest; mret (q :: qs)
  end.

(** [[x.num / x.den for x in value]]; iterating a [str] yields its
    characters, which have no [num]. *)
Definition comprehension (value : tag_values) : res (list float) :=
  match value with
  | Items l => quotients l
  | Text EmptyString => Ok []
  | Text (String _ _) => Raise (AttributeError "str" "num")
  end.

(** [d, m, s = ...] *)
Definition unpack3 (l : list float) : res (float * float * float) :=
  match l with
  | [d; m; s] => Ok (d, m, s)
  | _ :: _ :: _ :: _ :: _ =>
      Raise (ValueError "too many values to unpack (expected 3)")
  | _ =>
      Raise (ValueError ("not enough values to unpack (expected 3, got "
                         +:+ pretty (length l) +:+ ")"))
  end.

Definition _convert_to_degrees (value : tag_values) : res (option float) :=
  res_try
    (l ← comprehension value;
     '(d, m, s) ← unpack3 l;
     mret (Some (d + (m / 60) + (s / 3600))%float))
    (fun _ => Ok None).

(** [tag.values != letter]: a list never equals a [str]. *)
Definition values_ne (v : tag_values) (letter : string) : bool :=
  match v with
  | Text s => negb (String.eqb s letter)
  | Items _ => true
  end.

(** The two dictionaries [extract_image_metadata] fills. *)
Record locals := { info : dict; presence : dict }.

Definition set_info (k : string) (v : pyval) : M locals unit :=
  modify (fun s => {| info := <[k := v]> (info s); presence := presence s |}).

Definition set_presence (k : string) (v : pyval) : M locals unit :=
  modify (fun s => {| info := info s; presence := <[k := v]> (presence s) |}).

Definition set_key (k : string) (v : pyval) : M dict unit :=
  modify (fun info => <[k := v]> info).

(** [d.get(k)] *)
Definition get (d : dict) (k : string) : pyval := default VNone (d !! k).

(** The caller's buffer and the [io.BytesIO] the stripper writes to. *)
Record store := { input : bytes; buf : bytes }.

(** [mode in ("RGBA", "LA", "P")] *)
Definition alpha_or_palette (mode : string) : bool :=
  String.eqb mode "RGBA" || String.eqb mode "LA" || String.eqb mode "P".

Definition jpeg_params : save_params :=
  {| save_format := "JPEG"; save_quality := Some 95; save_optimize := true |}.

Definition png_params : save_params :=
  {| save_format := "PNG"; save_quality := None; save_optimize := true |}.

Definition new_presence : M locals unit :=
  modify (fun s =>
    {| info := info s;
       presence := {[ "gps_data" := VBool false;
                      "camera_info" := VBool false;
                      "timestamp" := VBool false ]} |}).

Section WithLibs.
Context (L : Libs).

(** [sniff_mime] *)
Definition sniff_mime (file_bytes : bytes) : string :=
  magic_from_buffer L (take (Z.to_nat 65536) file_bytes).

(** The first [try] block of [extract_image_metadata]. *)
Definition image_basics (file_bytes : bytes) : M locals unit :=
  try_except
    (img ← lift (Image_open L file_bytes);
     set_info "format" (str_or_none (img_format img));;
     set_info "size"
              (VTuple [VInt (fst (img_size img)); VInt (snd (img_size img))]);;
     set_info "mode" (VStr (img_mode img)))
    (fun e => set_info "image_error" (VStr (str_exn e))).

(** The body of the [if gps_lat and gps_lat_ref and gps_lon and
    gps_lon_ref] statement. *)
Definition image_gps (tags : gmap string IfdTag) : M locals unit :=
  let gps_lat := tags !! "GPS GPSLatitude" in
  let gps_lat_ref := tags !! "GPS GPSLatitudeRef" in
  let gps_lon := tags !! "GPS GPSLongitude" in
  let gps_lon_ref := tags !! "GPS GPSLongitudeRef" in
  match gps_lat, gps_lat_ref, gps_lon, gps_lon_ref with
  | Some gps_lat, Some gps_lat_ref, Some gps_lon, Some gps_lon_ref =>
      lat ← lift (_convert_to_degrees (values gps_lat));
      lon ← lift (_convert_to_degrees (values gps_lon));
      lat ← (if values_ne (values gps_lat_ref) "N"
             then lift (neg lat) else mret lat);
      lon ← (if values_ne (values gps_lon_ref) "E"
             then lift (neg lon) else mret lon);
      set_info "gps" (VDict {[ "latitude" := float_or_none lat;
                               "longitude" := float_or_none lon ]});;
      set_presence "gps_data" (VBool true)
  | _, _, _, _ => set_info "gps" (VStr "No GPS data found")
  end.

(** The second [try] block, up to the GPS lookups: the raw tags, the
    derived fields and their presence flags. *)
Definition image_tags (tags : gmap string IfdTag) : M locals unit :=
  let exif : gmap string string := printable <$> tags in
  set_info "raw_exif" (VDict (VStr <$> exif));;
  let make := exif !! "Image Make" in
  let model := exif !! "Image Model" in
  let date_taken := exif !! "EXIF DateTimeOriginal" in
  set_info "camera_make" (VStr (or_default make "Unknown"));;
  set_info "camera_model" (VStr (or_default model "Unknown"));;
  set_info "datetime_original" (VStr (or_default date_taken "Unknown"));;
  set_info "software" (VStr (default "Unknown" (exif !! "Image Software")));;
  when (str_truthy make || str_truthy model)
       (set_presence "camera_info" (VBool true));;
  when (str_truthy date_taken)
       (set_presence "timestamp" (VBool true)).

(** The second [try] block. *)
Definition image_exif (file_bytes : bytes) : M locals unit :=
  try_except
    (tags ← lift (process_file L file_bytes);
     image_tags tags;;
     image_gps tags)
    (fun e => set_info "exif_error" (VStr (str_exn e))).

Definition extract_image_metadata_body (file_bytes : bytes)
  : M locals dict :=
  image_basics file_bytes;;
  new_presence;;
  image_exif file_bytes;;
  presence ← gets presence;
  set_info "presence_report" (VDict presence);;
  gets info.

Definition extract_image_metadata (file_bytes : bytes) : res dict :=
  snd (extract_image_metadata_body file_bytes {| info := ∅; presence := ∅ |}).

Definition extract_pdf_metadata_body (file_bytes : bytes) : M dict dict :=
  try_except
    (reader ← lift (PdfReader L file_bytes);
     n ← lift (pdf_num_pages reader);
     set_key "num_pages" (VInt n);;
     metadata ← lift (pdf_metadata reader);
     set_key "document_info" (VDict (default ∅ metadata)))
    (fun e => set_key "pdf_error" (VStr (str_exn e)));;
  gets id.

Definition extract_pdf_metadata (file_bytes : bytes) : res dict :=
  snd (extract_pdf_metadata_body file_bytes ∅).

Definition extract_docx_metadata_body (file_bytes : bytes) : M dict dict :=
  try_except
    (core ← lift (Document L file_bytes);
     set_key "author" (VStr (author core));;
     set_key "title" (VStr (title core));;
     set_key "created" (VStr (str_date (created core)));;
     set_key "modified" (VStr (str_date (modified core))))
    (fun e => set_key "docx_error" (VStr (str_exn e)));;
  gets id.

Definition extract_docx_metadata (file_bytes : bytes) : res dict :=
  snd (extract_docx_metadata_body file_bytes ∅).

Definition extract_audio_metadata_body (file_bytes : bytes) : M dict dict :=
  try_except
    (audio ← lift (MutagenFile L file_bytes);
     match audio with
     | Some audio =>
         when (audio_truthy audio)
              (set_key "tags" (VDict (default ∅ (audio_tags audio)));;
               set_key "length" (float_or_none (audio_length audio)))
     | None => mret tt
     end)
    (fun e => set_key "audio_error" (VStr (str_exn e)));;
  gets id.

Definition extract_audio_metadata (file_bytes : bytes) : res dict :=
  snd (extract_audio_metadata_body file_bytes ∅).

(** [f"{v}"] *)
Definition py_str (v : pyval) : string :=
  match v with
  | VNone => "None"
  | VStr s => s
  | VBool true => "True"
  | VBool false => "False"
  | _ => str_other L v
  end.

Definition summary (img_meta : dict) : dict :=
  {[ "Camera" := VStr (py_str (get img_meta "camera_make") +:+ " "
                       +:+ py_str (get img_meta "camera_model"));
     "Taken On" := get img_meta "datetime_original";
     "Software" := get img_meta "software";
     "GPS" := get img_meta "gps" ]}.

Definition extract_metadata (file_bytes : bytes) : res dict :=
  let mime := sniff_mime file_bytes in
  let result : dict := {[ "mime" := VStr mime ]} in
  if startswith mime "image/" then
    img_meta ← extract_image_metadata file_bytes;
    let result := <["image" := VDict img_meta]> result in
    let result := <["summary" := VDict (summary img_meta)]> result in
    Ok result
  else if String.eqb mime "application/pdf" then
    pdf ← extract_pdf_metadata file_bytes;
    Ok (<["pdf" := VDict pdf]> result)
  else if contains "wordprocessingml" mime then
    docx ← extract_docx_metadata file_bytes;
    Ok (<["docx" := VDict docx]> result)
  else if startswith mime "audio/" then
    audio ← extract_audio_metadata file_bytes;
    Ok (<["audio" := VDict audio]> result)
  else
    Ok (<["note" := VStr "File type not supported"]> result).

(** [cleaned.save(buf, ...)] *)
Definition save (cleaned : Image) (params : save_params) : M store unit :=
  out ← lift (Image_save L cleaned params);
  modify (fun s => {| input := input s; buf := buf s ++ out |}).

(** The JPEG branch, which is also the [else] branch. *)
Definition save_as_jpeg (cleaned : Image) : M store unit :=
  cleaned ← (if alpha_or_palette (img_mode cleaned)
             then lift (Image_convert L cleaned "RGB")
             else mret cleaned);
  save cleaned jpeg_params.

(** The body of the [try] block of [strip_image_metadata]. *)
Definition reencode : M store bytes :=
  file_bytes ← gets input;
  img ← lift (Image_open L file_bytes);
  let fmt := upper (or_default (img_format img) "JPEG") in
  cleaned ← lift (Image_copy L img);
  let cleaned := set_img_info cleaned ∅ in
  (if String.eqb fmt "JPEG" then save_as_jpeg cleaned
   else if String.eqb fmt "PNG" then save cleaned png_params
   else save_as_jpeg cleaned);;
  gets buf.

Definition strip_image_metadata_body : M store bytes :=
  modify (fun s => {| input := input s; buf := [] |});;
  try_except reencode
    (fun e => lift (Raise (RuntimeError
                             ("Failed to strip metadata: " +:+ str_exn e)))).

Definition strip_image_metadata (file_bytes : bytes) : res bytes :=
  snd (strip_image_metadata_body {| input := file_bytes; buf := [] |}).
End WithLibs.

End Extractor.

(** * The vocabulary of the properties *)

Import Py Extractor.
Open Scope string_scope.

(** ** The states the image extractor goes through *)

Definition basics_state (opened : res Image) (s : locals) : locals :=
  match opened with
  | Ok img =>
      {| info := <["mode" := VStr (img_mode img)]>
                 (<["size" := VTuple [VInt (fst (img_size img));
                                      VInt (snd (img_size img))]]>
                  (<["format" := str_or_none (img_format img)]> (info s)));
         presence := presence s |}
  | Raise e =>
      {| info := <["image_error" := VStr (str_exn e)]> (info s);
         presence := presence s |}
  end.

Definition fresh_presence (s : locals) : locals :=
  {| info := info s;
     presence := {[ "gps_data" := VBool false;
                    "camera_info" := VBool false;
                    "timestamp" := VBool false ]} |}.

(** The state in which the second [try] block starts. *)
Definition before_exif (L : Libs) (b : bytes) : locals :=
  fresh_presence (basics_state (Image_open L b) {| info := ∅; presence := ∅ |}).

Definition tags_state (tags : gmap string IfdTag) (s : locals) : locals :=
  let exif : gmap string string := printable <$> tags in
  let make := exif !! "Image Make" in
  let model := exif !! "Image Model" in
  let date_taken := exif !! "EXIF DateTimeOriginal" in
  {| info :=
       <["software" := VStr (default "Unknown" (exif !! "Image Software"))]>
       (<["datetime_original" := VStr (or_default date_taken "Unknown")]>
        (<["camera_model" := VStr (or_default model "Unknown")]>
         (<["camera_make" := VStr (or_default make "Unknown")]>
          (<["raw_exif" := VDict (VStr <$> exif)]> (info s)))));
     presence :=
       (if str_truthy date_taken
        then <["timestamp" := VBool true]> else id)
         ((if str_truthy make || str_truthy model
           then <["camera_info" := VBool true]> else id) (presence s)) |}.

(** The four raw GPS fields of a tag dictionary. *)
Record gps_fields := {
  f_lat : IfdTag; f_lat_ref : IfdTag; f_lon : IfdTag; f_lon_ref : IfdTag
}.

Definition raw_gps (tags : gmap string IfdTag) : option gps_fields :=
  gps_lat ← tags !! "GPS GPSLatitude";
  gps_lat_ref ← tags !! "GPS GPSLatitudeRef";
  gps_lon ← tags !! "GPS GPSLongitude";
  gps_lon_ref ← tags !! "GPS GPSLongitudeRef";
  Some {| f_lat := gps_lat; f_lat_ref := gps_lat_ref;
          f_lon := gps_lon; f_lon_ref := gps_lon_ref |}.

(** All four raw GPS fields are present. *)
Definition all_four (tags : gmap string IfdTag) : Prop :=
  is_Some (tags !! "GPS GPSLatitude")
  /\ is_Some (tags !! "GPS GPSLatitudeRef")
  /\ is_Some (tags !! "GPS GPSLongitude")
  /\ is_Some (tags !! "GPS GPSLongitudeRef").

Definition signed (negate : bool) (v : option float) : res (option float) :=
  if negate then neg v else Ok v.

Definition gps_state (lat lon : option float) (s : locals) : locals :=
  {| info := <["gps" := VDict {[ "latitude" := float_or_none lat;
                                 "longitude" := float_or_none lon ]}]> (info s);
     presence := <["gps_data" := VBool true]> (presence s) |}.

Definition no_gps_state (s : locals) : locals :=
  {| info := <["gps" := VStr "No GPS data found"]> (info s);
     presence := presence s |}.

Definition exif_error_state (e : exn) (s : locals) : locals :=
  {| info := <["exif_error" := VStr (str_exn e)]> (info s);
     presence := presence s |}.

(** The dictionary [extract_image_metadata] returns from the final state. *)
Definition section_of (s : locals) : dict :=
  <["presence_report" := VDict (presence s)]> (info s).

(** The keys the second [try] block writes to. *)
Definition exif_keys : list string :=
  ["raw_exif"; "camera_make"; "camera_model"; "datetime_original";
   "software"; "gps"; "exif_error"].

(** ** Coordinates *)

(** An EXIF rational is two 32-bit integers (unsigned for the RATIONAL
    field type, signed for SRATIONAL); it is well formed when its
    denominator is not zero. *)
Definition exif_int (z : Z) : Prop := - 2 ^ 31 <= z < 2 ^ 32.

Definition well_formed (num den : Z) : Prop :=
  exif_int num /\ exif_int den /\ den <> 0.

(** The floating-point quotient of a rational. *)
Definition fquot (num den : Z) : float :=
  (float_of_int num / float_of_int den)%float.

(** [d + m/60 + s/3600] on floats. *)
Definition dms (d m s : float) : float := (d + m / 60 + s / 3600)%float.

(** [x] is within [10^-5] of 40.44611. *)
Definition near_40_44611 (x : float) : bool :=
  (abs (x - 4044611 / 100000) <? 1 / 100000)%float.

(** ** Concrete inputs *)

(** The outcome of a decoder an example does not reach. *)
Definition not_called {A} : res A := Raise (mk_exn "Exception" "not called").

(** The first bytes of a JPEG file with an EXIF segment. *)
Definition jpeg_bytes : bytes := [Byte.xff; Byte.xd8; Byte.xff; Byte.xe1].

Definition photo : Image :=
  {| img_format := Some "JPEG"; img_size := (4, 3); img_mode := "RGB";
     img_info := ∅; img_pixels := [] |}.

(** Decoders that sniff a JPEG image, decode [photo] and parse the EXIF
    segment with the given outcome. *)
Definition jpeg_libs (parsed : res (gmap string IfdTag)) : Libs :=
  {| magic_from_buffer := fun _ => "image/jpeg";
     Image_open := fun _ => Ok photo;
     Image_copy := fun img => Ok img;
     Image_convert := fun _ _ => not_called;
     Image_save := fun _ _ => Ok jpeg_bytes;
     process_file := fun _ => parsed;
     PdfReader := fun _ => not_called;
     Document := fun _ => not_called;
     MutagenFile := fun _ => not_called;
     str_other := fun _ => "" |}.

Definition ascii_tag (s : string) : IfdTag :=
  {| printable := s; values := Text s |}.

(** 40 degrees, 26 minutes, 46 seconds; and a triple whose seconds have a
    zero denominator. *)
Definition dms_40_26_46 : IfdTag :=
  {| printable := "[40, 26, 46]";
     values := Items [Ratio 40 1; Ratio 26 1; Ratio 46 1] |}.

Definition dms_zero_den : IfdTag :=
  {| printable := "[40, 26, 0/0]";
     values := Items [Ratio 40 1; Ratio 26 1; Ratio 0 0] |}.

Definition dms_79_58_56 : IfdTag :=
  {| printable := "[79, 58, 56]";
     values := Items [Ratio 79 1; Ratio 58 1; Ratio 56 1] |}.

Definition gps_tags (lat lat_ref lon lon_ref : IfdTag) : gmap string IfdTag :=
  {[ "GPS GPSLatitude" := lat; "GPS GPSLatitudeRef" := lat_ref;
     "GPS GPSLongitude" := lon; "GPS GPSLongitudeRef" := lon_ref ]}.

(** All four GPS fields, the latitude malformed, in the southern
    hemisphere. *)
Definition south_malformed : gmap string IfdTag :=
  gps_tags dms_zero_den (ascii_tag "S") dms_79_58_56 (ascii_tag "W").

(** The same in the northern hemisphere. *)
Definition north_malformed : gmap string IfdTag :=
  gps_tags dms_zero_den (ascii_tag "N") dms_79_58_56 (ascii_tag "W").

(** A well-formed position: 40.446 N, 79.982 W. *)
Definition pittsburgh : gmap string IfdTag :=
  gps_tags dms_40_26_46 (ascii_tag "N") dms_79_58_56 (ascii_tag "W").

(** ** The dispatcher's categories *)

Inductive category :=
| cat_image | cat_pdf | cat_docx | cat_audio | cat_unsupported.

(** The category of a sniffed type: an [image/] prefix, exactly
    [application/pdf], a type containing the word-processing marker, an
    [audio/] prefix, anything else; the first that applies. *)
Definition categorise (mime : string) : category :=
  if startswith mime "image/" then cat_image
  else if String.eqb mime "application/pdf" then cat_pdf
  else if contains "wordprocessingml" mime then cat_docx
  else if startswith mime "audio/" then cat_audio
  else cat_unsupported.

(** The report key of a category's section. *)
Definition section_key (c : category) : string :=
  match c with
  | cat_image => "image"
  | cat_pdf => "pdf"
  | cat_docx => "docx"
  | cat_audio => "audio"
  | cat_unsupported => "note"
  end.

Definition section_keys : list string :=
  ["image"; "pdf"; "docx"; "audio"; "note"].

(** The extractor of a category; the unsupported category has none. *)
Definition extractor_of (L : Libs) (c : category) (b : bytes)
  : option (res dict) :=
  match c with
  | cat_image => Some (extract_image_metadata L b)
  | cat_pdf => Some (extract_pdf_metadata L b)
  | cat_docx => Some (extract_docx_metadata L b)
  | cat_audio => Some (extract_audio_metadata L b)
  | cat_unsupported => None
  end.

(** ** The summary of an image report *)

(** The text of a tag, ["Unknown"] when the tag is absent or its text is
    empty. *)
Definition tag_or_unknown (tags : gmap string IfdTag) (name : string)
  : string :=
  match tags !! name with
  | Some tag =>
      match printable tag with
      | EmptyString => "Unknown"
      | text => text
      end
  | None => "Unknown"
  end.

(** The text of a tag, ["Unknown"] when the tag is absent. *)
Definition tag_or_unknown_if_absent (tags : gmap string IfdTag)
    (name : string) : string :=
  match tags !! name with
  | Some tag => printable tag
  | None => "Unknown"
  end.

(** The reference is exactly the given letter. *)
Definition is_letter (ref : tag_values) (letter : string) : bool :=
  match ref with
  | Text s => String.eqb s letter
  | Items _ => false
  end.

(** The coordinate as reported: the converted value, negated unless the
    reference is exactly the positive letter; [None] for a value that did
    not convert. *)
Definition reported_coordinate (ref : tag_values) (letter : string)
    (converted : option float) : pyval :=
  match converted with
  | Some x => VFloat (if is_letter ref letter then x else (- x)%float)
  | None => VNone
  end.

(** A coordinate object or the no-data marker. *)
Definition coordinate_or_marker (v : pyval) : Prop :=
  v = VStr "No GPS data found"
  \/ exists lat lon,
       v = VDict {[ "latitude" := VFloat lat; "longitude" := VFloat lon ]}.

(** The summary as the specification words it: for a buffer sniffed as an
    image the report has a [summary] whose [Camera] is the derived make and
    model joined by a space, whose [Taken On] and [Software] are the derived
    values, and whose [GPS] is the derived coordinate or the no-data
    marker. *)
Definition summary_as_specified (L : Libs) (b : bytes) : Prop :=
  startswith (sniff_mime L b) "image/" = true ->
  exists report summary section make model taken software gps,
    extract_metadata L b = Ok report
    /\ report !! "image" = Some (VDict section)
    /\ report !! "summary" = Some (VDict summary)
    /\ section !! "camera_make" = Some (VStr make)
    /\ section !! "camera_model" = Some (VStr model)
    /\ section !! "datetime_original" = Some (VStr taken)
    /\ section !! "software" = Some (VStr software)
    /\ summary !! "Camera" = Some (VStr (make +:+ " " +:+ model))
    /\ summary !! "Taken On" = Some (VStr taken)
    /\ summary !! "Software" = Some (VStr software)
    /\ summary !! "GPS" = Some gps
    /\ coordinate_or_marker gps.

(** An EXIF segment exifread cannot read. *)
Definition corrupt_exif : exn := mk_exn "ValueError" "corrupt EXIF segment".

(** ** The stripper *)

(** The name the stripper branches on: the decoded format in upper case,
    ["JPEG"] when the decoder reports none. *)
Definition format_name (img : Image) : string :=
  upper (or_default (img_format img) "JPEG").

(** A pixel mode with an alpha channel or a palette. *)
Definition alpha_or_palette_mode (mode : string) : Prop :=
  mode = "RGBA" \/ mode = "LA" \/ mode = "P".

(** What the caller of the stripper sees of an outcome of the decoding and
    re-encoding steps: the bytes, or the one stripping failure. *)
Definition strip_outcome (r : res bytes) : res bytes :=
  match r with
  | Ok out => Ok out
  | Raise e => Raise (RuntimeError ("Failed to strip metadata: " +:+ str_exn e))
  end.

(** Decoding and re-encoding, as the specification describes the policy:
    decode, drop the ancillary state, then PNG as PNG, anything else as JPEG
    after a conversion to RGB where the mode needs one. *)
Definition decode_and_reencode (L : Libs) (b : bytes) : res bytes :=
  img ← Image_open L b;
  copied ← Image_copy L img;
  let cleaned := set_img_info copied ∅ in
  if String.eqb (format_name img) "PNG"
  then Image_save L cleaned
         {| save_format := "PNG"; save_quality := None;
            save_optimize := true |}
  else
    rgb ← (if alpha_or_palette (img_mode cleaned)
           then Image_convert L cleaned "RGB" else Ok cleaned);
    Image_save L rgb
      {| save_format := "JPEG"; save_quality := Some 95;
         save_optimize := true |}.

(** A PNG image with an alpha channel, and decoders that sniff and decode
    it. *)
Definition png_bytes : bytes := [Byte.x89; Byte.x50; Byte.x4e; Byte.x47].

Definition icon : Image :=
  {| img_format := Some "PNG"; img_size := (2, 2); img_mode := "RGBA";
     img_info := {[ "dpi" := VTuple [VInt 72; VInt 72] ]};
     img_pixels := [] |}.

Definition png_libs : Libs :=
  {| magic_from_buffer := fun _ => "image/png";
     Image_open := fun _ => Ok icon;
     Image_copy := fun img => Ok img;
     Image_convert := fun _ _ => not_called;
     Image_save := fun _ _ => Ok png_bytes;
     process_file := fun _ => Ok ∅;
     PdfReader := fun _ => not_called;
     Document := fun _ => not_called;
     MutagenFile := fun _ => not_called;
     str_other := fun _ => "" |}.

(** Decoders that cannot open the buffer. *)
Definition undecodable : exn :=
  mk_exn "UnidentifiedImageError" "cannot identify image file".

Definition broken_libs : Libs :=
  {| magic_from_buffer := fun _ => "image/png";
     Image_open := fun _ => Raise undecodable;
     Image_copy := fun img => Ok img;
     Image_convert := fun _ _ => not_called;
     Image_save := fun _ _ => not_called;
     process_file := fun _ => Ok ∅;
     PdfReader := fun _ => not_called;
     Document := fun _ => not_called;
     MutagenFile := fun _ => not_called;
     str_other := fun _ => "" |}.

(** * main.py: the two upload routes *)

Module Main.

(** An uploaded file, werkzeug's [FileStorage]: its [filename], which may
    be [None], and the bytes [f.read()] returns. *)
Record FileStorage := { filename : option string; content : bytes }.

(** What a view returns: [jsonify(body), status] (200 when the view gives
    no status), or [send_file] with its keyword arguments. The bodies of
    the error responses hold one string each; a report can hold objects of
    the decoders, which [jsonify] may not be able to serialise (see
    [serialise] below). *)
Inductive response :=
| jsonify (body : dict) (status : Z)
| send_file (data : bytes) (mimetype : string) (as_attachment : bool)
            (download_name : string).

Section Routes.
Context (L : Libs).

(** [os.path.splitext], the platform's. *)
Context (splitext : string -> string * string).

(** Flask's JSON provider, as [jsonify(result)] runs it on a report: it
    raises a [TypeError] on an object it cannot serialise. *)
Context (serialise : dict -> res unit).

(** [extract_route]; [files] is [request.files]. The view has no [try]:
    an exception of [jsonify] leaves it. *)
Definition extract_route (files : gmap string FileStorage) : res response :=
  match files !! "file" with
  | None => Ok (jsonify {[ "error" := VStr "No file uploaded" ]} 400)
  | Some f =>
      let data := content f in
      result ← extract_metadata L data;
      serialise result;;
      Ok (jsonify result 200)
  end.

(** [clean_file] *)
Definition clean_file (files : gmap string FileStorage) : res response :=
  match files !! "file" with
  | None => Ok (jsonify {[ "error" := VStr "No file uploaded" ]} 400)
  | Some f =>
      let original_bytes := content f in
      let mime := or_default (Some (sniff_mime L original_bytes)) "" in
      if negb (startswith mime "image/")
      then Ok (jsonify {[ "error" := VStr "Only image cleaning supported" ]}
                       400)
      else
        match strip_image_metadata L original_bytes with
        | Raise e => Ok (jsonify {[ "error" := VStr (str_exn e) ]} 500)
        | Ok cleaned_bytes =>
            let '(name, ext) :=
              splitext (or_default (filename f) "cleaned.jpg") in
            let ext :=
              match ext with
              | EmptyString =>
                  if String.eqb mime "image/jpeg" then ".jpg" else ".png"
              | _ => ext
              end in
            let cleaned_name := name +:+ "_cleaned" +:+ ext in
            Ok (send_file cleaned_bytes mime true cleaned_name)
        end
  end.
End Routes.

End Main.

(** * More vocabulary *)

(** How the second [try] block of the image extractor can end, with the
    state it leaves: the parser raised; the tags were parsed and a raw GPS
    field is absent; all four are present and the coordinate object was
    written; all four are present and negating an unconverted coordinate
    raised. *)
Inductive exif_outcome (L : Libs) (b : bytes) (s : locals) : locals -> Prop :=
| exif_unreadable e :
    process_file L b = Raise e ->
    exif_outcome L b s (exif_error_state e s)
| exif_without_gps tags :
    process_file L b = Ok tags ->
    raw_gps tags = None ->
    exif_outcome L b s (no_gps_state (tags_state tags s))
| exif_with_gps tags f lat lon lat' lon' :
    process_file L b = Ok tags ->
    raw_gps tags = Some f ->
    _convert_to_degrees (values (f_lat f)) = Ok lat ->
    _convert_to_degrees (values (f_lon f)) = Ok lon ->
    signed (values_ne (values (f_lat_ref f)) "N") lat = Ok lat' ->
    signed (values_ne (values (f_lon_ref f)) "E") lon = Ok lon' ->
    exif_outcome L b s (gps_state lat' lon' (tags_state tags s))
| exif_negation_failed tags f lat lon :
    process_file L b = Ok tags ->
    raw_gps tags = Some f ->
    _convert_to_degrees (values (f_lat f)) = Ok lat ->
    _convert_to_degrees (values (f_lon f)) = Ok lon ->
    (lat = None /\ values (f_lat_ref f) <> Text "N")
    \/ (lon = None /\ values (f_lon_ref f) <> Text "E") ->
    exif_outcome L b s
      (exif_error_state (TypeError "bad operand type for unary -: 'NoneType'")
                        (tags_state tags s)).

(** A value the converter cannot turn into a number: text, a list that is
    not a triple, or a list with an element that is not a rational with a
    non-zero denominator. *)
Definition malformed (value : tag_values) : Prop :=
  match value with
  | Text _ => True
  | Items l =>
      length l <> 3%nat
      \/ (exists n, Int n ∈ l)
      \/ (exists num, Ratio num 0 ∈ l)
  end.

(** The tag is present with a non-empty text. *)
Definition has_text (tags : gmap string IfdTag) (name : string) : bool :=
  match tags !! name with
  | Some tag => negb (String.eqb (printable tag) "")
  | None => false
  end.

Definition presence_keys : list string :=
  ["gps_data"; "camera_info"; "timestamp"].

(** [r], with the [info] of the image emptied. *)
Definition scrubbed (r : res Image) : res Image :=
  match r with
  | Ok img => Ok (set_img_info img ∅)
  | Raise e => Raise e
  end.

(** A GIF animation frame and decoders for it: sniffed as [image/gif],
    palette mode, re-encoded by the encoder to the JPEG bytes. *)
Definition gif_bytes : bytes := [Byte.x47; Byte.x49; Byte.x46; Byte.x38].

Definition frame : Image :=
  {| img_format := Some "GIF"; img_size := (2, 2); img_mode := "P";
     img_info := {[ "version" := VStr "GIF89a" ]}; img_pixels := [] |}.

Definition gif_libs : Libs :=
  {| magic_from_buffer := fun _ => "image/gif";
     Image_open := fun _ => Ok frame;
     Image_copy := fun img => Ok img;
     Image_convert := fun img mode =>
       Ok {| img_format := None; img_size := img_size img; img_mode := mode;
             img_info := img_info img; img_pixels := img_pixels img |};
     Image_save := fun _ _ => Ok jpeg_bytes;
     process_file := fun _ => Ok ∅;
     PdfReader := fun _ => not_called;
     Document := fun _ => not_called;
     MutagenFile := fun _ => not_called;
     str_other := fun _ => "" |}.

(** [os.path.splitext] on a name without directory part, for the
    examples: the name is split at its last dot, unless nothing but dots
    comes before it. *)
Fixpoint split_last_dot (s : string) : option (string * string) :=
  match s with
  | EmptyString => None
  | String c rest =>
      match split_last_dot rest with
      | Some (name, ext) => Some (String c name, ext)
      | None => if Ascii.eqb c "." then Some (EmptyString, s) else None
      end
  end.

Fixpoint only_dots (s : string) : bool :=
  match s with
  | EmptyString => true
  | String c rest => Ascii.eqb c "." && only_dots rest
  end.

Definition split_at_dot (s : string) : string * string :=
  match split_last_dot s with
  | Some (name, ext) =>
      if only_dots name then (s, EmptyString) else (name, ext)
  | None => (s, EmptyString)
  end.

Definition upload (name : option string) (data : bytes)
  : gmap string Main.FileStorage :=
  {[ "file" := {| Main.filename := name; Main.content := data |} ]}.

(** Decoders for the three document kinds. *)
Definition pdf_reader_2_pages : PdfReader_obj :=
  {| pdf_num_pages := Ok 2;
     pdf_metadata := Raise (mk_exn "PdfReadError" "bad /Info") |}.

Definition document_libs : Libs :=
  {| magic_from_buffer := fun _ => "application/pdf";
     Image_open := fun _ => not_called;
     Image_copy := fun _ => not_called;
     Image_convert := fun _ _ => not_called;
     Image_save := fun _ _ => not_called;
     process_file := fun _ => not_called;
     PdfReader := fun _ => Ok pdf_reader_2_pages;
     Document := fun _ =>
       Ok {| author := "A. Writer"; title := ""; created := None;
             modified := Some "2024-01-02 03:04:05" |};
     MutagenFile := fun _ =>
       Ok (Some {| audio_truthy := false; audio_tags := None;
                   audio_length := Some 3%float |});
     str_other := fun _ => "" |}.

(** A presence report: a boolean under each of the three flags, nothing
    else. *)
Definition flags_only (report : dict) : Prop :=
  forall k,
    (k ∈ presence_keys -> exists flag, report !! k = Some (VBool flag))
    /\ (k ∉ presence_keys -> report !! k = None).

(** * Properties *)

(** ** Running the monad *)

Section Run.
Context {St : Type}.

Lemma run_bind {A B} (m : M St A) (k : A -> M St B) (s : St) :
  (m ≫= k) s =
  match m s with
  | (s', Ok a) => k a s'
  | (s', Raise e) => (s', Raise e)
  end.
Proof. reflexivity. Qed.

Lemma run_ret {A} (a : A) (s : St) : (mret a : M St A) s = (s, Ok a).
Proof. reflexivity. Qed.

Lemma run_lift {A} (r : res A) (s : St) : lift r s = (s, r).
Proof. reflexivity. Qed.

Lemma run_modify (f : St -> St) (s : St) : modify f s = (f s, Ok tt).
Proof. reflexivity. Qed.

Lemma run_gets {A} (f : St -> A) (s : St) : gets f s = (s, Ok (f s)).
Proof. reflexivity. Qed.

Lemma run_try {A} (body : M St A) (h : exn -> M St A) (s : St) :
  try_except body h s =
  match body s with
  | (s', Ok a) => (s', Ok a)
  | (s', Raise e) => h e s'
  end.
Proof. reflexivity. Qed.

Lemma run_when (b : bool) (m : M St unit) (s : St) :
  when b m s = if b then m s else (s, Ok tt).
Proof. destruct b; reflexivity. Qed.
End Run.

Lemma run_set_info k v s :
  set_info k v s
  = ({| info := <[k := v]> (info s); presence := presence s |}, Ok tt).
Proof. reflexivity. Qed.

Lemma run_set_presence k v s :
  set_presence k v s
  = ({| info := info s; presence := <[k := v]> (presence s) |}, Ok tt).
Proof. reflexivity. Qed.

Lemma run_set_key k v (i : dict) : set_key k v i = (<[k := v]> i, Ok tt).
Proof. reflexivity. Qed.

Ltac run :=
  repeat first
    [ rewrite run_bind | rewrite run_ret | rewrite run_lift
    | rewrite run_gets | rewrite run_try | rewrite run_when
    | rewrite run_set_info | rewrite run_set_presence | rewrite run_set_key
    | rewrite run_modify
    | progress cbv beta iota zeta
    | progress cbn [info presence input buf fst snd] ].

Ltac res_run := cbn [mbind mret res_mbind res_mret res_bind].

(** ** The image extractor, block by block *)

Lemma image_basics_run L b s :
  image_basics L b s = (basics_state (Image_open L b) s, Ok tt).
Proof.
  unfold image_basics, basics_state. run.
  destruct (Image_open L b); run; reflexivity.
Qed.

Lemma image_tags_run tags s : image_tags tags s = (tags_state tags s, Ok tt).
Proof.
  unfold image_tags, tags_state. run.
  destruct (str_truthy _ || str_truthy _); run;
    destruct (str_truthy _); run; reflexivity.
Qed.

Lemma raw_gps_all_four tags : is_Some (raw_gps tags) <-> all_four tags.
Proof.
  unfold raw_gps, all_four.
  destruct (tags !! "GPS GPSLatitude"), (tags !! "GPS GPSLatitudeRef"),
    (tags !! "GPS GPSLongitude"), (tags !! "GPS GPSLongitudeRef");
    cbn; split; intros H; repeat split; eauto;
    try (destruct H as [? H]; discriminate H);
    try (destruct H as (H1 & H2 & H3 & H4);
         first [ destruct H1 as [? H1]; discriminate H1
               | destruct H2 as [? H2]; discriminate H2
               | destruct H3 as [? H3]; discriminate H3
               | destruct H4 as [? H4]; discriminate H4 ]).
Qed.

Lemma raw_gps_lookup tags gps_lat gps_lat_ref gps_lon gps_lon_ref :
  tags !! "GPS GPSLatitude" = Some gps_lat ->
  tags !! "GPS GPSLatitudeRef" = Some gps_lat_ref ->
  tags !! "GPS GPSLongitude" = Some gps_lon ->
  tags !! "GPS GPSLongitudeRef" = Some gps_lon_ref ->
  raw_gps tags = Some {| f_lat := gps_lat; f_lat_ref := gps_lat_ref;
                         f_lon := gps_lon; f_lon_ref := gps_lon_ref |}.
Proof. unfold raw_gps. intros -> -> -> ->. reflexivity. Qed.

Lemma image_gps_absent tags s :
  raw_gps tags = None -> image_gps tags s = (no_gps_state s, Ok tt).
Proof.
  unfold raw_gps, image_gps, no_gps_state.
  destruct (tags !! "GPS GPSLatitude"), (tags !! "GPS GPSLatitudeRef"),
    (tags !! "GPS GPSLongitude"), (tags !! "GPS GPSLongitudeRef");
    cbn; intros H; try discriminate H; reflexivity.
Qed.

Lemma image_gps_present tags s f lat lon :
  raw_gps tags = Some f ->
  _convert_to_degrees (values (f_lat f)) = Ok lat ->
  _convert_to_degrees (values (f_lon f)) = Ok lon ->
  image_gps tags s =
  match signed (values_ne (values (f_lat_ref f)) "N") lat with
  | Raise e => (s, Raise e)
  | Ok lat' =>
      match signed (values_ne (values (f_lon_ref f)) "E") lon with
      | Raise e => (s, Raise e)
      | Ok lon' => (gps_state lat' lon' s, Ok tt)
      end
  end.
Proof.
  unfold raw_gps, image_gps, gps_state, signed.
  destruct (tags !! "GPS GPSLatitude"), (tags !! "GPS GPSLatitudeRef"),
    (tags !! "GPS GPSLongitude"), (tags !! "GPS GPSLongitudeRef");
    cbn [mbind option_bind]; intros H; try discriminate H.
  injection H as <-. cbn [f_lat f_lon f_lat_ref f_lon_ref].
  intros -> ->. run.
  destruct (values_ne _ "N"); run.
  - destruct (neg lat); run; [| reflexivity].
    destruct (values_ne _ "E"); run; [| reflexivity].
    destruct (neg lon); run; reflexivity.
  - destruct (values_ne _ "E"); run; [| reflexivity].
    destruct (neg lon); run; reflexivity.
Qed.

Lemma convert_to_degrees_returns value :
  exists o, _convert_to_degrees value = Ok o.
Proof.
  unfold _convert_to_degrees, res_try.
  destruct (_ ≫= _); eauto.
Qed.

Lemma image_exif_failed L b s e :
  process_file L b = Raise e ->
  image_exif L b s = (exif_error_state e s, Ok tt).
Proof. intros H. unfold image_exif. run. rewrite H. run. reflexivity. Qed.

Lemma image_exif_parsed L b s tags :
  process_file L b = Ok tags ->
  image_exif L b s =
  match image_gps tags (tags_state tags s) with
  | (s', Ok _) => (s', Ok tt)
  | (s', Raise e) => (exif_error_state e s', Ok tt)
  end.
Proof.
  intros H. unfold image_exif. run. rewrite H. run.
  rewrite image_tags_run. run.
  destruct (image_gps tags (tags_state tags s)) as [s' [[]|e]]; reflexivity.
Qed.

Lemma image_exif_returns L b s : snd (image_exif L b s) = Ok tt.
Proof.
  destruct (process_file L b) as [tags|e] eqn:H.
  - rewrite (image_exif_parsed _ _ _ _ H).
    destruct (image_gps tags (tags_state tags s)) as [s' [[]|e]]; reflexivity.
  - rewrite (image_exif_failed _ _ _ _ H). reflexivity.
Qed.

Lemma extract_image_metadata_run L b :
  extract_image_metadata L b
  = Ok (section_of (fst (image_exif L b (before_exif L b)))).
Proof.
  unfold extract_image_metadata, extract_image_metadata_body, new_presence.
  run. rewrite image_basics_run. run.
  fold (fresh_presence (basics_state (Image_open L b) {| info := ∅; presence := ∅ |})).
  fold (before_exif L b).
  pose proof (image_exif_returns L b (before_exif L b)) as H.
  destruct (image_exif L b (before_exif L b)) as [s' r]. cbn in H. subst r.
  run. reflexivity.
Qed.

(** ** What each block leaves in [info] *)

Lemma image_gps_info tags s k :
  k <> "gps" -> info (fst (image_gps tags s)) !! k = info s !! k.
Proof.
  intros Hk. destruct (raw_gps tags) as [f|] eqn:Hraw.
  - destruct (convert_to_degrees_returns (values (f_lat f))) as [lat Hlat].
    destruct (convert_to_degrees_returns (values (f_lon f))) as [lon Hlon].
    rewrite (image_gps_present _ _ _ _ _ Hraw Hlat Hlon).
    destruct (signed _ lat); [|reflexivity].
    destruct (signed _ lon); [|reflexivity].
    cbn [fst gps_state info]. apply lookup_insert_ne. congruence.
  - rewrite (image_gps_absent _ _ Hraw).
    cbn [fst no_gps_state info]. apply lookup_insert_ne. congruence.
Qed.

Lemma image_exif_parsed_info L b s tags k :
  process_file L b = Ok tags ->
  k <> "gps" -> k <> "exif_error" ->
  info (fst (image_exif L b s)) !! k = info (tags_state tags s) !! k.
Proof.
  intros Ht Hg He. rewrite (image_exif_parsed _ _ _ _ Ht).
  pose proof (image_gps_info tags (tags_state tags s) k Hg) as H.
  destruct (image_gps tags (tags_state tags s)) as [s' [[]|e]];
    cbn [fst] in *; [exact H|].
  cbn [exif_error_state info]. rewrite lookup_insert_ne by congruence. exact H.
Qed.

Lemma tags_state_info tags s k :
  k ∉ exif_keys -> info (tags_state tags s) !! k = info s !! k.
Proof.
  unfold exif_keys. rewrite !not_elem_of_cons.
  intros (? & ? & ? & ? & ? & _).
  cbn [tags_state info]. rewrite !lookup_insert_ne by congruence. reflexivity.
Qed.

Lemma image_exif_preserves L b s k :
  k ∉ exif_keys -> info (fst (image_exif L b s)) !! k = info s !! k.
Proof.
  intros Hk. pose proof Hk as Hk'. unfold exif_keys in Hk'.
  rewrite !not_elem_of_cons in Hk'.
  destruct Hk' as (_ & _ & _ & _ & _ & Hg & He & _).
  destruct (process_file L b) as [tags|e] eqn:Ht.
  - rewrite (image_exif_parsed_info _ _ _ _ _ Ht Hg He).
    apply tags_state_info, Hk.
  - rewrite (image_exif_failed _ _ _ _ Ht).
    cbn [fst exif_error_state info]. apply lookup_insert_ne. congruence.
Qed.

Lemma not_exif_key k :
  k = "format" \/ k = "size" \/ k = "mode" \/ k = "image_error" ->
  k ∉ exif_keys.
Proof.
  unfold exif_keys. rewrite !not_elem_of_cons.
  intros [ -> | [ -> | [ -> | -> ] ] ]; repeat split; try discriminate; apply not_elem_of_nil.
Qed.

(** ** The other extractors never raise *)

Lemma extract_pdf_metadata_returns L b :
  exists info, extract_pdf_metadata L b = Ok info.
Proof.
  unfold extract_pdf_metadata, extract_pdf_metadata_body. run.
  destruct (PdfReader L b) as [reader|e]; run; [|eauto].
  destruct (pdf_num_pages reader); run; [|eauto].
  destruct (pdf_metadata reader); run; eauto.
Qed.

Lemma extract_docx_metadata_returns L b :
  exists info, extract_docx_metadata L b = Ok info.
Proof.
  unfold extract_docx_metadata, extract_docx_metadata_body. run.
  destruct (Document L b); run; eauto.
Qed.

Lemma extract_audio_metadata_returns L b :
  exists info, extract_audio_metadata L b = Ok info.
Proof.
  unfold extract_audio_metadata, extract_audio_metadata_body. run.
  destruct (MutagenFile L b) as [[audio|]|e]; run; eauto.
  destruct (audio_truthy audio); run; eauto.
Qed.

Lemma extract_image_metadata_returns L b :
  exists info, extract_image_metadata L b = Ok info.
Proof. rewrite extract_image_metadata_run. eauto. Qed.

(** ** Lookups in the reports *)

Ltac section_key_cases Hk :=
  unfold section_keys in Hk; rewrite !elem_of_cons in Hk;
  destruct Hk as [ -> | [ -> | [ -> | [ -> | [ -> | Hk ] ] ] ] ];
  [ .. | apply elem_of_nil in Hk; contradiction ].

Ltac lookup_key :=
  repeat first
    [ rewrite lookup_insert_eq
    | rewrite lookup_insert_ne by discriminate
    | rewrite lookup_singleton_eq
    | rewrite lookup_singleton_ne by discriminate ].

Ltac decide_key :=
  lookup_key;
  split; intros H;
  first [ discriminate H
        | apply is_Some_None in H; contradiction
        | reflexivity
        | eexists; reflexivity ].

Lemma values_ne_spec v letter :
  values_ne v letter = false <-> v = Text letter.
Proof.
  destruct v as [s|l]; cbn.
  - rewrite negb_false_iff, String.eqb_eq. split; [intros ->|intros [= ->]]; reflexivity.
  - split; discriminate.
Qed.

Lemma section_lookup_info s k :
  k <> "presence_report" -> section_of s !! k = info s !! k.
Proof. intros H. unfold section_of. rewrite lookup_insert_ne; auto. Qed.

Lemma section_lookup_presence s :
  section_of s !! "presence_report" = Some (VDict (presence s)).
Proof. unfold section_of. apply lookup_insert_eq. Qed.

Lemma signed_positive_ref negate v :
  (v = None -> negate = false) ->
  exists v', signed negate v = Ok v' /\ (v = None -> v' = None).
Proof.
  intros H. destruct v as [x|].
  - destruct negate; cbn; eexists; (split; [reflexivity | discriminate]).
  - rewrite (H eq_refl). cbn. eauto.
Qed.

Lemma or_default_tag tags name :
  or_default ((printable <$> tags) !! name) "Unknown"
  = tag_or_unknown tags name.
Proof.
  unfold tag_or_unknown. rewrite lookup_fmap.
  destruct (tags !! name) as [tag|]; cbn; [|reflexivity].
  destruct (printable tag); reflexivity.
Qed.

Lemma default_tag tags name :
  default "Unknown" ((printable <$> tags) !! name)
  = tag_or_unknown_if_absent tags name.
Proof.
  unfold tag_or_unknown_if_absent. rewrite lookup_fmap.
  destruct (tags !! name); reflexivity.
Qed.

Lemma before_exif_no_exif_key L b k :
  k ∈ exif_keys -> info (before_exif L b) !! k = None.
Proof.
  unfold exif_keys. rewrite !elem_of_cons. unfold before_exif.
  intros Hk. cbn [fresh_presence info].
  destruct (Image_open L b); cbn [basics_state info];
    destruct Hk as [ -> | [ -> | [ -> | [ -> | [ -> | [ -> | [ -> | Hk ] ] ] ] ] ] ];
    try (apply elem_of_nil in Hk; contradiction);
    lookup_key; apply lookup_empty.
Qed.

Lemma signed_number negate x :
  signed negate (Some x) = Ok (Some (if negate then (- x)%float else x)).
Proof. destruct negate; reflexivity. Qed.

Lemma parsed_gps_absent L b tags :
  process_file L b = Ok tags -> ~ all_four tags ->
  info (fst (image_exif L b (before_exif L b))) !! "gps"
  = Some (VStr "No GPS data found").
Proof.
  intros Ht Hn. rewrite (image_exif_parsed _ _ _ _ Ht).
  destruct (raw_gps tags) as [f|] eqn:Hraw.
  - exfalso. apply Hn, raw_gps_all_four. rewrite Hraw. eauto.
  - rewrite (image_gps_absent _ _ Hraw). cbn [fst no_gps_state info].
    apply lookup_insert_eq.
Qed.

Lemma parsed_gps_numbers L b tags gps_lat gps_lat_ref gps_lon gps_lon_ref
    lat lon :
  process_file L b = Ok tags ->
  tags !! "GPS GPSLatitude" = Some gps_lat ->
  tags !! "GPS GPSLatitudeRef" = Some gps_lat_ref ->
  tags !! "GPS GPSLongitude" = Some gps_lon ->
  tags !! "GPS GPSLongitudeRef" = Some gps_lon_ref ->
  _convert_to_degrees (values gps_lat) = Ok (Some lat) ->
  _convert_to_degrees (values gps_lon) = Ok (Some lon) ->
  exists reported_lat reported_lon,
    info (fst (image_exif L b (before_exif L b))) !! "gps"
    = Some (VDict {[ "latitude" := VFloat reported_lat;
                     "longitude" := VFloat reported_lon ]}).
Proof.
  intros Ht H1 H2 H3 H4 Hlat Hlon.
  pose proof (raw_gps_lookup _ _ _ _ _ H1 H2 H3 H4) as Hraw.
  rewrite (image_exif_parsed _ _ _ _ Ht).
  rewrite (image_gps_present _ _ _ _ _ Hraw Hlat Hlon).
  rewrite !signed_number. cbn [fst gps_state info float_or_none].
  eexists _, _. apply lookup_insert_eq.
Qed.

Lemma tags_state_gps_data tags s :
  presence (tags_state tags s) !! "gps_data" = presence s !! "gps_data".
Proof.
  cbn [tags_state presence].
  destruct (str_truthy _); destruct (str_truthy _ || str_truthy _);
    unfold id; lookup_key; reflexivity.
Qed.

Lemma all_four_gps_tags lat lat_ref lon lon_ref :
  all_four (gps_tags lat lat_ref lon lon_ref).
Proof.
  unfold all_four, gps_tags. repeat split; eexists; vm_compute; reflexivity.
Qed.

(** ** The coordinate converter *)

Lemma int_truediv_well_formed num den :
  well_formed num den -> int_truediv num den = Ok (fquot num den).
Proof.
  intros (Hn & Hd & Hz). unfold int_truediv, fquot, fits_mantissa, exif_int in *.
  destruct (Z.eqb_spec den 0) as [->|_]; [contradiction|].
  assert ((Z.abs num <=? 2 ^ 53)%Z = true) as -> by (apply Z.leb_le; lia).
  assert ((Z.abs den <=? 2 ^ 53)%Z = true) as -> by (apply Z.leb_le; lia).
  reflexivity.
Qed.

(** C4. A triple of rationals [[d, m, s]] whose three divisions succeed
    converts to [d + m/60 + s/3600] on the floating-point quotients; for
    well-formed EXIF rationals the divisions do succeed, each quotient being
    the float of the numerator divided by the float of the denominator; and
    the triple [[(40,1), (26,1), (46,1)]] converts to a value within
    [10^-5] of 40.44611. *)
Theorem convert_to_degrees_formula :
  (forall dn dd mn md sn sd d m s,
     int_truediv dn dd = Ok d ->
     int_truediv mn md = Ok m ->
     int_truediv sn sd = Ok s ->
     _convert_to_degrees (Items [Ratio dn dd; Ratio mn md; Ratio sn sd])
     = Ok (Some (dms d m s)))
  /\ (forall dn dd mn md sn sd,
        well_formed dn dd -> well_formed mn md -> well_formed sn sd ->
        _convert_to_degrees (Items [Ratio dn dd; Ratio mn md; Ratio sn sd])
        = Ok (Some (dms (fquot dn dd) (fquot mn md) (fquot sn sd))))
  /\ (exists x,
        _convert_to_degrees (Items [Ratio 40 1; Ratio 26 1; Ratio 46 1])
        = Ok (Some x)
        /\ near_40_44611 x = true).
Proof.
  assert (forall dn dd mn md sn sd d m s,
             int_truediv dn dd = Ok d ->
             int_truediv mn md = Ok m ->
             int_truediv sn sd = Ok s ->
             _convert_to_degrees (Items [Ratio dn dd; Ratio mn md; Ratio sn sd])
             = Ok (Some (dms d m s))) as General.
  { intros dn dd mn md sn sd d m s Hd Hm Hs.
    unfold _convert_to_degrees, comprehension, quotients, quotient.
    rewrite Hd, Hm, Hs. reflexivity. }
  split; [exact General|]. split.
  - intros dn dd mn md sn sd Hd Hm Hs.
    apply General; apply int_truediv_well_formed; assumption.
  - eexists. split; vm_compute; reflexivity.
Qed.

Lemma convert_to_degrees_formula_witness :
  _convert_to_degrees (Items [Ratio 40 1; Ratio 26 1; Ratio 46 1])
  = Ok (Some (dms (fquot 40 1) (fquot 26 1) (fquot 46 1))).
Proof.
  apply (proj1 (proj2 convert_to_degrees_formula) 40 1 26 1 46 1);
    unfold well_formed, exif_int; lia.
Defined.

(** ** The GPS block of the image extractor *)

(** C5. With all four raw GPS fields present and both coordinates
    converted to numbers, the reported latitude is the converted value when
    the latitude reference is exactly ["N"] and its negation otherwise; the
    reported longitude is the converted value when the longitude reference
    is exactly ["E"] and its negation otherwise. *)
Theorem gps_sign_convention L b tags gps_lat gps_lat_ref gps_lon gps_lon_ref
    lat lon :
  process_file L b = Ok tags ->
  tags !! "GPS GPSLatitude" = Some gps_lat ->
  tags !! "GPS GPSLatitudeRef" = Some gps_lat_ref ->
  tags !! "GPS GPSLongitude" = Some gps_lon ->
  tags !! "GPS GPSLongitudeRef" = Some gps_lon_ref ->
  _convert_to_degrees (values gps_lat) = Ok (Some lat) ->
  _convert_to_degrees (values gps_lon) = Ok (Some lon) ->
  exists section gps reported_lat reported_lon,
    extract_image_metadata L b = Ok section
    /\ section !! "gps" = Some (VDict gps)
    /\ gps !! "latitude" = Some (VFloat reported_lat)
    /\ gps !! "longitude" = Some (VFloat reported_lon)
    /\ (values gps_lat_ref = Text "N" -> reported_lat = lat)
    /\ (values gps_lat_ref <> Text "N" -> reported_lat = (- lat)%float)
    /\ (values gps_lon_ref = Text "E" -> reported_lon = lon)
    /\ (values gps_lon_ref <> Text "E" -> reported_lon = (- lon)%float).
Proof.
  intros Ht H1 H2 H3 H4 Hlat Hlon.
  pose proof (raw_gps_lookup _ _ _ _ _ H1 H2 H3 H4) as Hraw.
  rewrite extract_image_metadata_run, (image_exif_parsed _ _ _ _ Ht).
  rewrite (image_gps_present _ _ _ _ _ Hraw Hlat Hlon).
  cbn [f_lat_ref f_lon_ref].
  destruct (values_ne (values gps_lat_ref) "N") eqn:En;
    destruct (values_ne (values gps_lon_ref) "E") eqn:Ee;
    cbn [signed neg fst];
    (eexists _, _, _, _; split; [reflexivity|];
     split; [rewrite section_lookup_info by discriminate;
             cbn [gps_state info]; apply lookup_insert_eq|];
     split; [cbn [float_or_none]; apply lookup_insert_eq|];
     split; [cbn [float_or_none]; rewrite lookup_insert_ne by discriminate;
             apply lookup_insert_eq|]);
    repeat split; intros H;
    try reflexivity;
    try (apply values_ne_spec in H; congruence);
    try (apply values_ne_spec in En; contradiction);
    try (apply values_ne_spec in Ee; contradiction).
Qed.

Lemma gps_sign_convention_witness :
  exists section gps,
    extract_image_metadata (jpeg_libs (Ok pittsburgh)) jpeg_bytes = Ok section
    /\ section !! "gps" = Some (VDict gps)
    /\ gps !! "latitude"
       = Some (VFloat (dms (fquot 40 1) (fquot 26 1) (fquot 46 1)))
    /\ gps !! "longitude"
       = Some (VFloat (- dms (fquot 79 1) (fquot 58 1) (fquot 56 1))).
Proof.
  destruct (gps_sign_convention (jpeg_libs (Ok pittsburgh)) jpeg_bytes
              pittsburgh dms_40_26_46 (ascii_tag "N") dms_79_58_56
              (ascii_tag "W")
              (dms (fquot 40 1) (fquot 26 1) (fquot 46 1))
              (dms (fquot 79 1) (fquot 58 1) (fquot 56 1)))
    as (section & gps & rlat & rlon & Hs & Hg & Hla & Hlo & Hn & _ & _ & Hw);
    try (vm_compute; reflexivity).
  exists section, gps. split; [exact Hs|]. split; [exact Hg|].
  rewrite Hla, Hlo, (Hn eq_refl), (Hw ltac:(discriminate)). split; reflexivity.
Defined.

(** C10. Some image input yields a GPS object without two floats: when
    all four raw GPS fields are present, a coordinate does not convert, and
    every coordinate that does not convert carries the positive reference
    (["N"] for the latitude, ["E"] for the longitude), the [gps] field is a
    coordinate object holding [None] for that coordinate, and the presence
    flag [gps_data] is true all the same. *)
Theorem null_coordinate_reported L b tags gps_lat gps_lat_ref gps_lon
    gps_lon_ref lat lon :
  process_file L b = Ok tags ->
  tags !! "GPS GPSLatitude" = Some gps_lat ->
  tags !! "GPS GPSLatitudeRef" = Some gps_lat_ref ->
  tags !! "GPS GPSLongitude" = Some gps_lon ->
  tags !! "GPS GPSLongitudeRef" = Some gps_lon_ref ->
  _convert_to_degrees (values gps_lat) = Ok lat ->
  _convert_to_degrees (values gps_lon) = Ok lon ->
  lat = None \/ lon = None ->
  (lat = None -> values gps_lat_ref = Text "N") ->
  (lon = None -> values gps_lon_ref = Text "E") ->
  exists section gps report,
    extract_image_metadata L b = Ok section
    /\ section !! "gps" = Some (VDict gps)
    /\ (gps !! "latitude" = Some VNone \/ gps !! "longitude" = Some VNone)
    /\ section !! "presence_report" = Some (VDict report)
    /\ report !! "gps_data" = Some (VBool true).
Proof.
  intros Ht H1 H2 H3 H4 Hlat Hlon Hnull Hn He.
  pose proof (raw_gps_lookup _ _ _ _ _ H1 H2 H3 H4) as Hraw.
  rewrite extract_image_metadata_run, (image_exif_parsed _ _ _ _ Ht).
  rewrite (image_gps_present _ _ _ _ _ Hraw Hlat Hlon).
  cbn [f_lat_ref f_lon_ref].
  destruct (signed_positive_ref (values_ne (values gps_lat_ref) "N") lat)
    as (lat' & -> & Hlat').
  { intros E. apply values_ne_spec, Hn, E. }
  destruct (signed_positive_ref (values_ne (values gps_lon_ref) "E") lon)
    as (lon' & -> & Hlon').
  { intros E. apply values_ne_spec, He, E. }
  cbn [fst]. eexists _, _, _. split; [reflexivity|].
  split; [rewrite section_lookup_info by discriminate;
          cbn [gps_state info]; apply lookup_insert_eq|].
  split.
  - destruct Hnull as [E|E].
    + left. rewrite (Hlat' E). apply lookup_insert_eq.
    + right. rewrite (Hlon' E), lookup_insert_ne by discriminate.
      apply lookup_insert_eq.
  - split; [apply section_lookup_presence|].
    cbn [gps_state presence]. apply lookup_insert_eq.
Qed.

Lemma null_coordinate_reported_witness :
  exists section gps report,
    extract_image_metadata (jpeg_libs (Ok north_malformed)) jpeg_bytes
    = Ok section
    /\ section !! "gps" = Some (VDict gps)
    /\ (gps !! "latitude" = Some VNone \/ gps !! "longitude" = Some VNone)
    /\ section !! "presence_report" = Some (VDict report)
    /\ report !! "gps_data" = Some (VBool true).
Proof.
  apply (null_coordinate_reported (jpeg_libs (Ok north_malformed)) jpeg_bytes
           north_malformed dms_zero_den (ascii_tag "N") dms_79_58_56
           (ascii_tag "W") None
           (Some (dms (fquot 79 1) (fquot 58 1) (fquot 56 1))));
    try (vm_compute; reflexivity).
  - left. reflexivity.
  - discriminate.
Defined.

(** The half of C2 the code keeps: when a raw GPS field is absent, the
    [gps] field is the marker and [gps_data] is false. *)
Lemma gps_absent_reported L b tags :
  process_file L b = Ok tags -> ~ all_four tags ->
  exists section report,
    extract_image_metadata L b = Ok section
    /\ section !! "gps" = Some (VStr "No GPS data found")
    /\ section !! "presence_report" = Some (VDict report)
    /\ report !! "gps_data" = Some (VBool false).
Proof.
  intros Ht Hn. eexists _, _. split; [apply extract_image_metadata_run|].
  split; [rewrite section_lookup_info by discriminate;
          apply (parsed_gps_absent _ _ _ Ht Hn)|].
  split; [apply section_lookup_presence|].
  rewrite (image_exif_parsed _ _ _ _ Ht).
  destruct (raw_gps tags) as [f|] eqn:Hraw.
  - exfalso. apply Hn, raw_gps_all_four. rewrite Hraw. eauto.
  - rewrite (image_gps_absent _ _ Hraw). cbn [fst no_gps_state presence].
    rewrite tags_state_gps_data. reflexivity.
Qed.

(** And [gps_data] is true only when all four are present. *)
Lemma gps_data_needs_all_four L b tags section report :
  process_file L b = Ok tags ->
  extract_image_metadata L b = Ok section ->
  section !! "presence_report" = Some (VDict report) ->
  report !! "gps_data" = Some (VBool true) ->
  all_four tags.
Proof.
  intros Ht Hs Hp Hg. destruct (raw_gps tags) as [f|] eqn:Hraw.
  - apply raw_gps_all_four. rewrite Hraw. eauto.
  - exfalso.
    destruct (gps_absent_reported L b tags Ht) as (s' & r' & Hs' & _ & Hp' & Hg').
    { intros Ha. apply raw_gps_all_four in Ha. rewrite Hraw in Ha.
      apply is_Some_None in Ha. exact Ha. }
    rewrite Hs in Hs'. injection Hs' as <-.
    rewrite Hp in Hp'. injection Hp' as <-.
    rewrite Hg in Hg'. discriminate Hg'.
Qed.

(** When a coordinate converts to [None] under a reference other than the
    positive letter, the negation raises and the block is left before the
    [gps] field and the flag are written. *)
Lemma negated_none_aborts L b tags gps_lat gps_lat_ref gps_lon gps_lon_ref
    lon :
  process_file L b = Ok tags ->
  tags !! "GPS GPSLatitude" = Some gps_lat ->
  tags !! "GPS GPSLatitudeRef" = Some gps_lat_ref ->
  tags !! "GPS GPSLongitude" = Some gps_lon ->
  tags !! "GPS GPSLongitudeRef" = Some gps_lon_ref ->
  _convert_to_degrees (values gps_lat) = Ok None ->
  _convert_to_degrees (values gps_lon) = Ok lon ->
  values gps_lat_ref <> Text "N" ->
  exists section report,
    extract_image_metadata L b = Ok section
    /\ section !! "gps" = None
    /\ section !! "exif_error"
       = Some (VStr "bad operand type for unary -: 'NoneType'")
    /\ section !! "presence_report" = Some (VDict report)
    /\ report !! "gps_data" = Some (VBool false).
Proof.
  intros Ht H1 H2 H3 H4 Hlat Hlon Hn.
  pose proof (raw_gps_lookup _ _ _ _ _ H1 H2 H3 H4) as Hraw.
  assert (values_ne (values gps_lat_ref) "N" = true) as En.
  { destruct (values_ne (values gps_lat_ref) "N") eqn:E; [reflexivity|].
    apply values_ne_spec in E. contradiction. }
  eexists _, _. split; [apply extract_image_metadata_run|].
  rewrite (image_exif_parsed _ _ _ _ Ht).
  rewrite (image_gps_present _ _ _ _ _ Hraw Hlat Hlon).
  cbn [f_lat_ref f_lon_ref]. rewrite En. cbn [signed neg fst].
  split; [|split; [|split]].
  - rewrite section_lookup_info by discriminate.
    cbn [exif_error_state tags_state info]. lookup_key.
    apply before_exif_no_exif_key.
    unfold exif_keys. rewrite !elem_of_cons. tauto.
  - rewrite section_lookup_info by discriminate.
    cbn [exif_error_state info]. apply lookup_insert_eq.
  - apply section_lookup_presence.
  - cbn [exif_error_state presence]. rewrite tags_state_gps_data.
    reflexivity.
Qed.

(** C2 (the code departs from it). On an image whose four raw GPS fields
    are all present, with a latitude that does not convert and the reference
    ["S"], the presence flag [gps_data] is false, the section has no [gps]
    field, and the failed negation of [None] is recorded as [exif_error]. *)
Theorem gps_presence_lost_south :
  all_four south_malformed
  /\ exists section report,
       extract_image_metadata (jpeg_libs (Ok south_malformed)) jpeg_bytes
       = Ok section
       /\ section !! "presence_report" = Some (VDict report)
       /\ report !! "gps_data" = Some (VBool false)
       /\ section !! "gps" = None
       /\ section !! "exif_error"
          = Some (VStr "bad operand type for unary -: 'NoneType'").
Proof.
  split; [apply all_four_gps_tags|].
  eexists _, _. split; [vm_compute; reflexivity|].
  repeat split; vm_compute; reflexivity.
Qed.

(** C3 (the code departs from it). The malformed latitude converts to
    [None] without raising, but with the reference ["S"] the caller negates
    it: a [TypeError] is raised past the conversion, before the [gps] field
    is written, and it surfaces in the image section as [exif_error]. *)
Theorem malformed_south_raises :
  _convert_to_degrees (values dms_zero_den) = Ok None
  /\ (forall s,
        image_gps south_malformed s
        = (s, Raise (TypeError "bad operand type for unary -: 'NoneType'")))
  /\ exists section,
       extract_image_metadata (jpeg_libs (Ok south_malformed)) jpeg_bytes
       = Ok section
       /\ section !! "gps" = None
       /\ section !! "exif_error"
          = Some (VStr "bad operand type for unary -: 'NoneType'").
Proof.
  split; [vm_compute; reflexivity|]. split.
  - intros s.
    rewrite (image_gps_present south_malformed s
               {| f_lat := dms_zero_den; f_lat_ref := ascii_tag "S";
                  f_lon := dms_79_58_56; f_lon_ref := ascii_tag "W" |}
               None (Some (dms (fquot 79 1) (fquot 58 1) (fquot 56 1))));
      vm_compute; reflexivity.
  - eexists. split; [vm_compute; reflexivity|].
    split; vm_compute; reflexivity.
Qed.

(** ** The dispatcher *)

Lemma extract_metadata_image L b :
  startswith (sniff_mime L b) "image/" = true ->
  exists section,
    extract_image_metadata L b = Ok section
    /\ extract_metadata L b
       = Ok (<["summary" := VDict (summary L section)]>
             (<["image" := VDict section]>
              {[ "mime" := VStr (sniff_mime L b) ]})).
Proof.
  intros H. destruct (extract_image_metadata_returns L b) as [section Hs].
  exists section. split; [exact Hs|].
  unfold extract_metadata. rewrite H, Hs. reflexivity.
Qed.

(** C1. For every input buffer [extract_metadata] returns a report and
    does not raise. The report holds the sniffed type under [mime], and of
    the keys [image], [pdf], [docx], [audio] and [note] exactly the one of
    the sniffed type's category: the matching extractor's result, or the
    string ["File type not supported"] under [note]. *)
Theorem extract_metadata_total L b :
  exists report,
    extract_metadata L b = Ok report
    /\ report !! "mime" = Some (VStr (sniff_mime L b))
    /\ (forall k, k ∈ section_keys ->
          is_Some (report !! k)
          <-> k = section_key (categorise (sniff_mime L b)))
    /\ match extractor_of L (categorise (sniff_mime L b)) b with
       | Some extracted =>
           exists section,
             extracted = Ok section
             /\ report !! section_key (categorise (sniff_mime L b))
                = Some (VDict section)
       | None => report !! "note" = Some (VStr "File type not supported")
       end.
Proof.
  unfold categorise.
  destruct (startswith (sniff_mime L b) "image/") eqn:Hi.
  { destruct (extract_metadata_image L b Hi) as (section & Hs & ->).
    eexists. split; [reflexivity|]. split; [lookup_key; reflexivity|].
    split.
    - intros k Hk. section_key_cases Hk; cbn [section_key]; decide_key.
    - cbn [extractor_of section_key]. exists section. split; [exact Hs|].
      lookup_key. reflexivity. }
  unfold extract_metadata. rewrite Hi.
  destruct (String.eqb (sniff_mime L b) "application/pdf").
  { destruct (extract_pdf_metadata_returns L b) as [section Hs]. rewrite Hs.
    eexists. split; [reflexivity|]. split; [lookup_key; reflexivity|].
    split.
    - intros k Hk. section_key_cases Hk; cbn [section_key]; decide_key.
    - cbn [extractor_of section_key]. exists section. split; [exact Hs|].
      lookup_key. reflexivity. }
  destruct (contains "wordprocessingml" (sniff_mime L b)).
  { destruct (extract_docx_metadata_returns L b) as [section Hs]. rewrite Hs.
    eexists. split; [reflexivity|]. split; [lookup_key; reflexivity|].
    split.
    - intros k Hk. section_key_cases Hk; cbn [section_key]; decide_key.
    - cbn [extractor_of section_key]. exists section. split; [exact Hs|].
      lookup_key. reflexivity. }
  destruct (startswith (sniff_mime L b) "audio/").
  { destruct (extract_audio_metadata_returns L b) as [section Hs]. rewrite Hs.
    eexists. split; [reflexivity|]. split; [lookup_key; reflexivity|].
    split.
    - intros k Hk. section_key_cases Hk; cbn [section_key]; decide_key.
    - cbn [extractor_of section_key]. exists section. split; [exact Hs|].
      lookup_key. reflexivity. }
  eexists. split; [reflexivity|]. split; [lookup_key; reflexivity|].
  split.
  - intros k Hk. section_key_cases Hk; cbn [section_key]; decide_key.
  - cbn [extractor_of]. lookup_key. reflexivity.
Qed.

(** ** Failures stay in their own field *)

Lemma basics_kept L b img k :
  Image_open L b = Ok img ->
  k = "format" \/ k = "size" \/ k = "mode" ->
  section_of (fst (image_exif L b (before_exif L b))) !! k
  = info (basics_state (Ok img) {| info := ∅; presence := ∅ |}) !! k.
Proof.
  intros Ho Hk.
  rewrite section_lookup_info by (destruct Hk as [ -> | [ -> | -> ] ]; discriminate).
  rewrite image_exif_preserves
    by (apply not_exif_key; tauto).
  unfold before_exif. rewrite Ho. reflexivity.
Qed.

(** C8. A failure of the EXIF parser is recorded as [exif_error]; the
    format, size and mode of a decoded image are in the section whatever
    happens while the tags are read. A failure to decode the image is
    recorded as [image_error], and the tags the parser returns are still
    extracted. For a buffer sniffed as an image the report holds the image
    section under [image] and no other format's section. *)
Theorem image_failures_isolated L b :
  (forall e, process_file L b = Raise e ->
     exists section,
       extract_image_metadata L b = Ok section
       /\ section !! "exif_error" = Some (VStr (str_exn e)))
  /\ (forall img, Image_open L b = Ok img ->
        exists section,
          extract_image_metadata L b = Ok section
          /\ section !! "format" = Some (str_or_none (img_format img))
          /\ section !! "size"
             = Some (VTuple [VInt (fst (img_size img));
                             VInt (snd (img_size img))])
          /\ section !! "mode" = Some (VStr (img_mode img)))
  /\ (forall e, Image_open L b = Raise e ->
        exists section,
          extract_image_metadata L b = Ok section
          /\ section !! "image_error" = Some (VStr (str_exn e))
          /\ forall tags, process_file L b = Ok tags ->
               section !! "raw_exif"
               = Some (VDict (VStr <$> (printable <$> tags)))
               /\ section !! "camera_make"
                  = Some (VStr (tag_or_unknown tags "Image Make")))
  /\ (startswith (sniff_mime L b) "image/" = true ->
        exists report section,
          extract_metadata L b = Ok report
          /\ extract_image_metadata L b = Ok section
          /\ report !! "image" = Some (VDict section)
          /\ report !! "pdf" = None /\ report !! "docx" = None
          /\ report !! "audio" = None /\ report !! "note" = None).
Proof.
  split; [|split; [|split]].
  - intros e He. eexists. split; [apply extract_image_metadata_run|].
    rewrite section_lookup_info by discriminate.
    rewrite (image_exif_failed _ _ _ _ He). apply lookup_insert_eq.
  - intros img Ho. eexists. split; [apply extract_image_metadata_run|].
    rewrite !(basics_kept _ _ _ _ Ho) by tauto.
    cbn [basics_state info]. lookup_key. repeat split; reflexivity.
  - intros e Ho. eexists. split; [apply extract_image_metadata_run|]. split.
    + rewrite section_lookup_info by discriminate.
      rewrite image_exif_preserves by (apply not_exif_key; tauto).
      unfold before_exif. rewrite Ho. apply lookup_insert_eq.
    + intros tags Ht.
      rewrite !section_lookup_info by discriminate.
      rewrite !(image_exif_parsed_info _ _ _ _ _ Ht) by discriminate.
      cbn [tags_state info]. lookup_key. split; [reflexivity|].
      unfold tag_or_unknown. rewrite lookup_fmap.
      destruct (tags !! "Image Make") as [tag|]; cbn; [|reflexivity].
      destruct (printable tag); reflexivity.
  - intros Hi. destruct (extract_metadata_image L b Hi) as (section & Hs & ->).
    eexists _, section. split; [reflexivity|]. split; [exact Hs|].
    lookup_key. repeat split; apply lookup_empty.
Qed.

Lemma image_failures_isolated_witness :
  exists section,
    extract_image_metadata (jpeg_libs (Raise corrupt_exif)) jpeg_bytes
    = Ok section
    /\ section !! "exif_error" = Some (VStr "corrupt EXIF segment")
    /\ section !! "format" = Some (VStr "JPEG")
    /\ section !! "mode" = Some (VStr "RGB").
Proof.
  pose proof (image_failures_isolated (jpeg_libs (Raise corrupt_exif))
                jpeg_bytes) as (He & Hb & _).
  destruct (He corrupt_exif eq_refl) as (section & Hs & Herr).
  destruct (Hb photo eq_refl) as (section' & Hs' & Hf & _ & Hm).
  exists section. rewrite Hs in Hs'. injection Hs' as <-.
  repeat split; assumption.
Defined.

(** ** The summary *)

Lemma signed_reported ref letter v :
  (v = None -> ref = Text letter) ->
  exists v',
    signed (values_ne ref letter) v = Ok v'
    /\ float_or_none v' = reported_coordinate ref letter v.
Proof.
  intros Hnone. destruct v as [x|].
  - rewrite signed_number. eexists. split; [reflexivity|].
    cbn [float_or_none reported_coordinate].
    destruct ref as [s|l]; cbn [values_ne is_letter]; [|reflexivity].
    destruct (String.eqb s letter); reflexivity.
  - rewrite (Hnone eq_refl). exists None. split; [|reflexivity].
    cbn [values_ne]. rewrite String.eqb_refl. reflexivity.
Qed.

(** C9, as amended. For a buffer sniffed as an image the report has a
    [summary], whose [GPS] is the [gps] field of the image section, [None]
    when the section has none. When the EXIF tags are parsed, [Camera] is
    the derived make and model joined by a space, [Taken On] the derived
    capture time and [Software] the derived software, each ["Unknown"] when
    its tag is absent; [GPS] is the no-data marker when a raw GPS field is
    absent; and when all four are present and every coordinate that does
    not convert carries the positive reference, it is the coordinate object
    whose latitude and longitude are the converted values, each negated
    unless its reference is exactly ["N"], ["E"], and [None] for a value
    that did not convert. When the EXIF parser fails, no value is derived:
    [Camera] is ["None None"] and the three other fields are [None]. *)
Theorem summary_of_image L b :
  startswith (sniff_mime L b) "image/" = true ->
  exists report summary section,
    extract_metadata L b = Ok report
    /\ report !! "image" = Some (VDict section)
    /\ report !! "summary" = Some (VDict summary)
    /\ summary !! "GPS"
       = Some (match section !! "gps" with
               | Some gps => gps
               | None => VNone
               end)
    /\ (forall tags, process_file L b = Ok tags ->
          summary !! "Camera"
          = Some (VStr (tag_or_unknown tags "Image Make" +:+ " "
                        +:+ tag_or_unknown tags "Image Model"))
          /\ summary !! "Taken On"
             = Some (VStr (tag_or_unknown tags "EXIF DateTimeOriginal"))
          /\ summary !! "Software"
             = Some (VStr (tag_or_unknown_if_absent tags "Image Software"))
          /\ (~ all_four tags ->
              summary !! "GPS" = Some (VStr "No GPS data found"))
          /\ (forall gps_lat gps_lat_ref gps_lon gps_lon_ref lat lon,
                tags !! "GPS GPSLatitude" = Some gps_lat ->
                tags !! "GPS GPSLatitudeRef" = Some gps_lat_ref ->
                tags !! "GPS GPSLongitude" = Some gps_lon ->
                tags !! "GPS GPSLongitudeRef" = Some gps_lon_ref ->
                _convert_to_degrees (values gps_lat) = Ok lat ->
                _convert_to_degrees (values gps_lon) = Ok lon ->
                (lat = None -> values gps_lat_ref = Text "N") ->
                (lon = None -> values gps_lon_ref = Text "E") ->
                summary !! "GPS"
                = Some (VDict
                          {[ "latitude" :=
                               reported_coordinate (values gps_lat_ref) "N"
                                                   lat;
                             "longitude" :=
                               reported_coordinate (values gps_lon_ref) "E"
                                                   lon ]})))
    /\ (forall e, process_file L b = Raise e ->
          summary !! "Camera" = Some (VStr "None None")
          /\ summary !! "Taken On" = Some VNone
          /\ summary !! "Software" = Some VNone
          /\ summary !! "GPS" = Some VNone).
Proof.
  intros Hi. destruct (extract_metadata_image L b Hi) as (section & Hs & ->).
  rewrite extract_image_metadata_run in Hs. injection Hs as <-.
  eexists _, _, _. split; [reflexivity|].
  split; [lookup_key; reflexivity|]. split; [lookup_key; reflexivity|].
  unfold summary, get. split; [|split].
  - lookup_key.
    destruct (section_of _ !! "gps"); reflexivity.
  - intros tags Ht. lookup_key.
    rewrite !section_lookup_info by discriminate.
    rewrite !(image_exif_parsed_info _ _ _ _ _ Ht) by discriminate.
    cbn [tags_state info]. lookup_key. cbn [default py_str].
    rewrite !or_default_tag, default_tag.
    split; [reflexivity|]. split; [reflexivity|]. split; [reflexivity|]. split.
    + intros Hn. rewrite (parsed_gps_absent _ _ _ Ht Hn). reflexivity.
    + intros gps_lat gps_lat_ref gps_lon gps_lon_ref lat lon
        H1 H2 H3 H4 Hlat Hlon Hn He.
      pose proof (raw_gps_lookup _ _ _ _ _ H1 H2 H3 H4) as Hraw.
      rewrite (image_exif_parsed _ _ _ _ Ht).
      rewrite (image_gps_present _ _ _ _ _ Hraw Hlat Hlon).
      cbn [f_lat_ref f_lon_ref].
      destruct (signed_reported (values gps_lat_ref) "N" lat Hn)
        as (lat' & -> & <-).
      destruct (signed_reported (values gps_lon_ref) "E" lon He)
        as (lon' & -> & <-).
      cbn [fst gps_state info]. lookup_key. reflexivity.
  - intros e He. lookup_key.
    rewrite !section_lookup_info by discriminate.
    rewrite (image_exif_failed _ _ _ _ He). cbn [fst exif_error_state info].
    lookup_key.
    rewrite !before_exif_no_exif_key
      by (unfold exif_keys; rewrite !elem_of_cons; tauto).
    repeat split; reflexivity.
Qed.

Lemma summary_of_image_witness :
  exists report summary,
    extract_metadata (jpeg_libs (Ok pittsburgh)) jpeg_bytes = Ok report
    /\ report !! "summary" = Some (VDict summary)
    /\ summary !! "Camera" = Some (VStr "Unknown Unknown")
    /\ summary !! "Taken On" = Some (VStr "Unknown")
    /\ summary !! "Software" = Some (VStr "Unknown")
    /\ summary !! "GPS"
       = Some (VDict
                 {[ "latitude" :=
                      VFloat (dms (fquot 40 1) (fquot 26 1) (fquot 46 1));
                    "longitude" :=
                      VFloat (- dms (fquot 79 1) (fquot 58 1) (fquot 56 1)) ]}).
Proof.
  destruct (summary_of_image (jpeg_libs (Ok pittsburgh)) jpeg_bytes eq_refl)
    as (report & summary & section & Hr & _ & Hs & _ & Hparsed & _).
  destruct (Hparsed pittsburgh eq_refl) as (Hc & Ht & Hw & _ & Hgps).
  exists report, summary.
  split; [exact Hr|]. split; [exact Hs|]. split; [exact Hc|].
  split; [exact Ht|]. split; [exact Hw|].
  apply (Hgps dms_40_26_46 (ascii_tag "N") dms_79_58_56 (ascii_tag "W")
              (Some (dms (fquot 40 1) (fquot 26 1) (fquot 46 1)))
              (Some (dms (fquot 79 1) (fquot 58 1) (fquot 56 1))));
    try (vm_compute; reflexivity); discriminate.
Defined.

(** C9 as the specification words it fails when the EXIF parser raises: no
    camera make is derived, and the summary's [Camera] is ["None None"]. *)
Lemma summary_as_specified_fails :
  ~ summary_as_specified (jpeg_libs (Raise corrupt_exif)) jpeg_bytes.
Proof.
  intros H.
  destruct (H eq_refl)
    as (report & summary & section & make & model & taken & software & gps
        & Hr & Hi & _ & Hmake & _).
  vm_compute in Hr. injection Hr as <-.
  vm_compute in Hi. injection Hi as <-.
  vm_compute in Hmake. discriminate Hmake.
Qed.

(** ** The stripper *)

Lemma alpha_or_palette_spec mode :
  alpha_or_palette mode = true <-> alpha_or_palette_mode mode.
Proof.
  unfold alpha_or_palette, alpha_or_palette_mode.
  rewrite !orb_true_iff, !String.eqb_eq. tauto.
Qed.

Lemma upper_name_not_both name :
  String.eqb name "JPEG" = true -> String.eqb name "PNG" = false.
Proof. rewrite String.eqb_eq. intros ->. reflexivity. Qed.

(** The stripper runs the specified policy and wraps its failure; it
    writes to its own buffer only. *)
Lemma strip_image_metadata_body_run L s :
  exists written,
    strip_image_metadata_body L s
    = ({| input := input s; buf := written |},
       strip_outcome (decode_and_reencode L (input s))).
Proof.
  unfold strip_image_metadata_body, reencode, decode_and_reencode,
    save_as_jpeg, save, format_name.
  run.
  destruct (Image_open L (input s)) as [img|e]; run; res_run; [|eauto].
  destruct (Image_copy L img) as [copied|e]; run; res_run; [|eauto].
  set (name := upper (or_default (img_format img) "JPEG")).
  destruct (String.eqb name "JPEG") eqn:Ej.
  - rewrite (upper_name_not_both _ Ej). run.
    destruct (alpha_or_palette _); run; res_run.
    + destruct (Image_convert L _ "RGB") as [rgb|e]; run; res_run; [|eauto].
      destruct (Image_save L rgb _); run; eauto.
    + destruct (Image_save L _ _); run; eauto.
  - destruct (String.eqb name "PNG"); run; res_run.
    + unfold png_params. destruct (Image_save L _ _); run; eauto.
    + destruct (alpha_or_palette _); run; res_run.
      * destruct (Image_convert L _ "RGB") as [rgb|e]; run; res_run; [|eauto].
        destruct (Image_save L rgb _); run; eauto.
      * destruct (Image_save L _ _); run; eauto.
Qed.

Lemma strip_image_metadata_run L b :
  strip_image_metadata L b = strip_outcome (decode_and_reencode L b).
Proof.
  unfold strip_image_metadata.
  destruct (strip_image_metadata_body_run L {| input := b; buf := [] |})
    as [written ->].
  reflexivity.
Qed.

(** C6. A buffer that decodes as an image is re-encoded by format. The
    stripper first empties the [info] dictionary of the decoded copy. A PNG
    image is then saved as PNG with optimisation, in its own pixel mode; an
    image of any other format, or of none, is saved as JPEG at quality 95
    with optimisation, after a conversion to RGB when its mode is RGBA, LA
    or P. *)
Theorem strip_reencodes_by_format L b img copied :
  Image_open L b = Ok img ->
  Image_copy L img = Ok copied ->
  let cleaned := set_img_info copied ∅ in
  img_info cleaned = ∅
  /\ img_mode cleaned = img_mode copied
  /\ (img_format img = Some "PNG" -> format_name img = "PNG")
  /\ (img_format img = Some "JPEG" \/ img_format img = None ->
      format_name img <> "PNG")
  /\ (format_name img = "PNG" ->
      strip_image_metadata L b
      = strip_outcome
          (Image_save L cleaned
             {| save_format := "PNG"; save_quality := None;
                save_optimize := true |}))
  /\ (format_name img <> "PNG" ->
      ~ alpha_or_palette_mode (img_mode copied) ->
      strip_image_metadata L b
      = strip_outcome
          (Image_save L cleaned
             {| save_format := "JPEG"; save_quality := Some 95;
                save_optimize := true |}))
  /\ (format_name img <> "PNG" ->
      alpha_or_palette_mode (img_mode copied) ->
      strip_image_metadata L b
      = strip_outcome
          (rgb ← Image_convert L cleaned "RGB";
           Image_save L rgb
             {| save_format := "JPEG"; save_quality := Some 95;
                save_optimize := true |})).
Proof.
  intros Ho Hc cleaned.
  split; [reflexivity|]. split; [reflexivity|].
  split; [unfold format_name; intros ->; reflexivity|].
  split; [unfold format_name; intros [ -> | -> ]; discriminate|].
  rewrite strip_image_metadata_run. unfold decode_and_reencode.
  rewrite Ho. res_run. rewrite Hc. res_run. fold cleaned.
  split; [|split].
  - intros ->. reflexivity.
  - intros Hf Hm. apply String.eqb_neq in Hf. rewrite Hf.
    destruct (alpha_or_palette (img_mode cleaned)) eqn:Ea.
    + apply alpha_or_palette_spec in Ea. contradiction.
    + reflexivity.
  - intros Hf Hm. apply String.eqb_neq in Hf. rewrite Hf.
    apply alpha_or_palette_spec in Hm. unfold cleaned at 1.
    cbn [set_img_info img_mode]. rewrite Hm. reflexivity.
Qed.

Lemma strip_reencodes_by_format_witness :
  strip_image_metadata png_libs png_bytes
  = strip_outcome
      (Image_save png_libs (set_img_info icon ∅)
         {| save_format := "PNG"; save_quality := None;
            save_optimize := true |}).
Proof.
  destruct (strip_reencodes_by_format png_libs png_bytes icon icon
              eq_refl eq_refl) as (_ & _ & Hpng & _ & Hstrip & _).
  apply Hstrip, Hpng. reflexivity.
Defined.

Lemma extract_metadata_returns L b : returns (extract_metadata L b).
Proof.
  unfold returns, extract_metadata.
  destruct (startswith (sniff_mime L b) "image/").
  { destruct (extract_image_metadata_returns L b) as [d ->]. res_run. eauto. }
  destruct (String.eqb (sniff_mime L b) "application/pdf").
  { destruct (extract_pdf_metadata_returns L b) as [d ->]. res_run. eauto. }
  destruct (contains "wordprocessingml" (sniff_mime L b)).
  { destruct (extract_docx_metadata_returns L b) as [d ->]. res_run. eauto. }
  destruct (startswith (sniff_mime L b) "audio/").
  { destruct (extract_audio_metadata_returns L b) as [d ->]. res_run. eauto. }
  eauto.
Qed.

(** C7. The stripper raises exactly when decoding or re-encoding fails,
    and then raises the one [RuntimeError] that carries the cause's text;
    when they succeed it returns the re-encoded bytes. The caller's buffer
    is the same after the call as before, whatever the outcome; and the
    extraction entry point never raises. *)
Theorem strip_failure_only L b :
  (raises (strip_image_metadata L b) <-> raises (decode_and_reencode L b))
  /\ (forall e, strip_image_metadata L b = Raise e ->
        exists cause,
          decode_and_reencode L b = Raise cause
          /\ e = RuntimeError ("Failed to strip metadata: " +:+ str_exn cause))
  /\ (forall out, decode_and_reencode L b = Ok out ->
        strip_image_metadata L b = Ok out)
  /\ (forall s, input (fst (strip_image_metadata_body L s)) = input s)
  /\ returns (extract_metadata L b).
Proof.
  rewrite strip_image_metadata_run. unfold raises.
  split; [|split; [|split; [|split]]].
  - destruct (decode_and_reencode L b) as [out|cause]; cbn; split;
      intros [e H]; try discriminate H; eauto.
  - intros e. destruct (decode_and_reencode L b) as [out|cause]; cbn;
      intros H; [discriminate H|].
    injection H as <-. eauto.
  - intros out ->. reflexivity.
  - intros s. destruct (strip_image_metadata_body_run L s) as [written ->].
    reflexivity.
  - apply extract_metadata_returns.
Qed.

Lemma strip_failure_only_witness :
  strip_image_metadata broken_libs png_bytes
  = Raise (RuntimeError
             "Failed to strip metadata: cannot identify image file").
Proof.
  destruct (strip_failure_only broken_libs png_bytes) as ([_ Hr] & Hcause & _).
  destruct Hr as [e He]; [exists undecodable; reflexivity|].
  destruct (Hcause e He) as (cause & Hc & ->).
  rewrite He. injection Hc as <-. reflexivity.
Defined.

(** * Further properties of the code *)

Import Main.

(** ** The coordinate converter *)

Lemma quotients_length l qs : quotients l = Ok qs -> length qs = length l.
Proof.
  revert qs. induction l as [|x rest IH]; intros qs H.
  - injection H as <-. reflexivity.
  - cbn [quotients] in H. res_run. destruct (quotient x) as [q|e]; [|discriminate H].
    cbn in H. destruct (quotients rest) as [qs'|e]; [|discriminate H].
    cbn in H. injection H as <-. cbn. f_equal. apply IH. reflexivity.
Qed.

Lemma int_truediv_zero num : int_truediv num 0 = Raise ZeroDivisionError.
Proof. reflexivity. Qed.

(** X1. The converter returns a number exactly for a list of three
    rationals whose three divisions succeed, and that number is
    [d + m/60 + s/3600] on the quotients. *)
Theorem convert_to_degrees_number_iff value x :
  _convert_to_degrees value = Ok (Some x)
  <-> exists dn dd mn md sn sd d m s,
        value = Items [Ratio dn dd; Ratio mn md; Ratio sn sd]
        /\ int_truediv dn dd = Ok d
        /\ int_truediv mn md = Ok m
        /\ int_truediv sn sd = Ok s
        /\ x = dms d m s.
Proof.
  split.
  - unfold _convert_to_degrees, res_try. intros H.
    destruct value as [text|l].
    { destruct text; cbn in H; discriminate H. }
    cbn [comprehension] in H.
    destruct (quotients l) as [qs|e] eqn:Hq; res_run; [|discriminate H].
    pose proof (quotients_length _ _ Hq) as Hlen.
    destruct qs as [|d [|m [|s [|extra qs]]]]; cbn in H; try discriminate H.
    destruct l as [|a [|b0 [|c [|extra l]]]]; try discriminate Hlen.
    injection H as <-.
    cbn [quotients] in Hq. res_run.
    destruct a as [dn dd|?]; cbn [quotient] in Hq; [|discriminate Hq].
    destruct (int_truediv dn dd) as [d'|?] eqn:Hd; [|discriminate Hq].
    destruct b0 as [mn md|?]; cbn [quotient] in Hq; [|discriminate Hq].
    destruct (int_truediv mn md) as [m'|?] eqn:Hm; [|discriminate Hq].
    destruct c as [sn sd|?]; cbn [quotient] in Hq; [|discriminate Hq].
    destruct (int_truediv sn sd) as [s'|?] eqn:Hs; [|discriminate Hq].
    injection Hq as <- <- <-.
    exists dn, dd, mn, md, sn, sd, d', m', s'. repeat split; assumption.
  - intros (dn & dd & mn & md & sn & sd & d & m & s & -> & Hd & Hm & Hs & ->).
    unfold _convert_to_degrees, comprehension, quotients, quotient.
    rewrite Hd, Hm, Hs. reflexivity.
Qed.

(** X2. A malformed value (text, a list that is not a triple, an element
    that is not a rational, a zero denominator) converts to [None]; the
    converter raises on no value at all. *)
Theorem convert_to_degrees_malformed value :
  malformed value -> _convert_to_degrees value = Ok None.
Proof.
  intros Hbad.
  destruct (convert_to_degrees_returns value) as [[x|] Hv]; [|exact Hv].
  exfalso. apply convert_to_degrees_number_iff in Hv.
  destruct Hv as (dn & dd & mn & md & sn & sd & d & m & s & -> & Hd & Hm & Hs & _).
  cbn [malformed] in Hbad.
  destruct Hbad as [Hlen | [[n Hin] | [num Hin]]].
  - apply Hlen. reflexivity.
  - rewrite !elem_of_cons in Hin.
    destruct Hin as [H | [H | [H | H]]]; try discriminate H.
    apply elem_of_nil in H. exact H.
  - rewrite !elem_of_cons in Hin.
    destruct Hin as [H | [H | [H | H]]].
    + injection H as <- <-. rewrite int_truediv_zero in Hd. discriminate Hd.
    + injection H as <- <-. rewrite int_truediv_zero in Hm. discriminate Hm.
    + injection H as <- <-. rewrite int_truediv_zero in Hs. discriminate Hs.
    + apply elem_of_nil in H. exact H.
Qed.

Lemma convert_to_degrees_malformed_witness :
  _convert_to_degrees (Items [Ratio 40 1; Ratio 26 1]) = Ok None
  /\ _convert_to_degrees (Items [Ratio 40 1; Ratio 26 1; Ratio 46 0]) = Ok None
  /\ _convert_to_degrees (Text "N") = Ok None.
Proof.
  split; [|split].
  - apply (convert_to_degrees_malformed (Items [Ratio 40 1; Ratio 26 1])).
    left. cbn. lia.
  - apply (convert_to_degrees_malformed
             (Items [Ratio 40 1; Ratio 26 1; Ratio 46 0])).
    right. right. exists 46. rewrite !elem_of_cons. tauto.
  - apply (convert_to_degrees_malformed (Text "N")). exact I.
Defined.

(** ** How the image extractor ends *)

Lemma signed_raises negate v e :
  signed negate v = Raise e ->
  v = None /\ negate = true
  /\ e = TypeError "bad operand type for unary -: 'NoneType'".
Proof.
  destruct negate, v; cbn; intros H; try discriminate H.
  injection H as <-. auto.
Qed.

Lemma values_ne_true v letter : values_ne v letter = true -> v <> Text letter.
Proof.
  intros H E. apply values_ne_spec in E. rewrite E in H. discriminate H.
Qed.

Lemma image_exif_outcome L b s : exif_outcome L b s (fst (image_exif L b s)).
Proof.
  destruct (process_file L b) as [tags|e] eqn:Ht.
  - rewrite (image_exif_parsed _ _ _ _ Ht).
    destruct (raw_gps tags) as [f|] eqn:Hraw.
    + destruct (convert_to_degrees_returns (values (f_lat f))) as [lat Hlat].
      destruct (convert_to_degrees_returns (values (f_lon f))) as [lon Hlon].
      rewrite (image_gps_present _ _ _ _ _ Hraw Hlat Hlon).
      destruct (signed _ lat) as [lat'|e] eqn:Sa.
      * destruct (signed _ lon) as [lon'|e] eqn:So; cbn [fst].
        -- eapply exif_with_gps; eassumption.
        -- destruct (signed_raises _ _ _ So) as (-> & Hne & ->).
           eapply exif_negation_failed; try eassumption.
           right. split; [reflexivity|]. apply values_ne_true, Hne.
      * cbn [fst]. destruct (signed_raises _ _ _ Sa) as (-> & Hne & ->).
        eapply exif_negation_failed; try eassumption.
        left. split; [reflexivity|]. apply values_ne_true, Hne.
    + rewrite (image_gps_absent _ _ Hraw). cbn [fst].
      apply exif_without_gps; assumption.
  - rewrite (image_exif_failed _ _ _ _ Ht). cbn [fst].
    apply exif_unreadable, Ht.
Qed.

Lemma exif_key_in k :
  k = "raw_exif" \/ k = "camera_make" \/ k = "camera_model"
  \/ k = "datetime_original" \/ k = "software" \/ k = "gps"
  \/ k = "exif_error" ->
  k ∈ exif_keys.
Proof. unfold exif_keys. rewrite !elem_of_cons. tauto. Qed.

Lemma tags_state_gps L b tags :
  info (tags_state tags (before_exif L b)) !! "gps" = None.
Proof.
  cbn [tags_state info]. lookup_key.
  apply before_exif_no_exif_key, exif_key_in. tauto.
Qed.

Lemma tags_state_exif_error L b tags :
  info (tags_state tags (before_exif L b)) !! "exif_error" = None.
Proof.
  cbn [tags_state info]. lookup_key.
  apply before_exif_no_exif_key, exif_key_in. tauto.
Qed.

(** X3. Every image section holds exactly one of [gps] and [exif_error]:
    the GPS field is written when, and only when, the second [try] block
    runs to its end. *)
Theorem gps_or_exif_error L b :
  exists section,
    extract_image_metadata L b = Ok section
    /\ (is_Some (section !! "gps") <-> section !! "exif_error" = None).
Proof.
  eexists. split; [apply extract_image_metadata_run|].
  rewrite !section_lookup_info by discriminate.
  destruct (image_exif_outcome L b (before_exif L b))
    as [e He | tags Ht Hraw | tags f lat lon lat' lon' Ht Hraw Hlat Hlon Sa So
        | tags f lat lon Ht Hraw Hlat Hlon Hneg].
  - cbn [exif_error_state info]. lookup_key.
    rewrite before_exif_no_exif_key by (apply exif_key_in; tauto).
    split; intros H; [apply is_Some_None in H; contradiction | discriminate H].
  - cbn [no_gps_state info]. lookup_key. rewrite tags_state_exif_error.
    split; eauto.
  - cbn [gps_state info]. lookup_key. rewrite tags_state_exif_error.
    split; eauto.
  - cbn [exif_error_state info]. lookup_key. rewrite tags_state_gps.
    split; intros H; [apply is_Some_None in H; contradiction | discriminate H].
Qed.

Lemma before_exif_gps_data L b :
  presence (before_exif L b) !! "gps_data" = Some (VBool false).
Proof. unfold before_exif. cbn [fresh_presence presence]. reflexivity. Qed.

(** X4. The presence flag [gps_data] is true exactly when the [gps] field
    of the section is a coordinate object. *)
Theorem gps_data_iff_coordinates L b :
  exists section report,
    extract_image_metadata L b = Ok section
    /\ section !! "presence_report" = Some (VDict report)
    /\ (report !! "gps_data" = Some (VBool true)
        <-> exists coordinates, section !! "gps" = Some (VDict coordinates)).
Proof.
  eexists _, _. split; [apply extract_image_metadata_run|].
  split; [apply section_lookup_presence|].
  rewrite section_lookup_info by discriminate.
  destruct (image_exif_outcome L b (before_exif L b))
    as [e He | tags Ht Hraw | tags f lat lon lat' lon' Ht Hraw Hlat Hlon Sa So
        | tags f lat lon Ht Hraw Hlat Hlon Hneg].
  - cbn [exif_error_state info presence]. lookup_key.
    rewrite before_exif_gps_data,
      before_exif_no_exif_key by (apply exif_key_in; tauto).
    split; [intros H; discriminate H | intros [? H]; discriminate H].
  - cbn [no_gps_state info presence]. lookup_key.
    rewrite tags_state_gps_data, before_exif_gps_data.
    split; [intros H; discriminate H | intros [? H]; discriminate H].
  - cbn [gps_state info presence]. lookup_key. split; eauto.
  - cbn [exif_error_state info presence]. lookup_key.
    rewrite tags_state_gps_data, before_exif_gps_data, tags_state_gps.
    split; [intros H; discriminate H | intros [? H]; discriminate H].
Qed.

(** ** The presence report *)

Lemma str_truthy_has_text tags name :
  str_truthy ((printable <$> tags) !! name) = has_text tags name.
Proof.
  unfold has_text. rewrite lookup_fmap.
  destruct (tags !! name) as [tag|]; cbn; [|reflexivity].
  destruct (printable tag); reflexivity.
Qed.

Lemma tags_state_flags L b tags :
  presence (tags_state tags (before_exif L b)) !! "camera_info"
  = Some (VBool (has_text tags "Image Make" || has_text tags "Image Model"))
  /\ presence (tags_state tags (before_exif L b)) !! "timestamp"
     = Some (VBool (has_text tags "EXIF DateTimeOriginal")).
Proof.
  cbn [tags_state presence]. rewrite !str_truthy_has_text.
  destruct (has_text tags "EXIF DateTimeOriginal");
    destruct (has_text tags "Image Make" || has_text tags "Image Model");
    unfold id; lookup_key; split; reflexivity.
Qed.

(** X5. When the EXIF tags are parsed, [camera_info] is true exactly when
    the make or the model tag has a non-empty text, and [timestamp] exactly
    when the capture-time tag has one; whatever happens in the GPS block
    afterwards. *)
Theorem camera_and_timestamp_flags L b tags :
  process_file L b = Ok tags ->
  exists section report,
    extract_image_metadata L b = Ok section
    /\ section !! "presence_report" = Some (VDict report)
    /\ report !! "camera_info"
       = Some (VBool (has_text tags "Image Make"
                      || has_text tags "Image Model"))
    /\ report !! "timestamp"
       = Some (VBool (has_text tags "EXIF DateTimeOriginal")).
Proof.
  intros Ht.
  eexists _, _. split; [apply extract_image_metadata_run|].
  split; [apply section_lookup_presence|].
  destruct (tags_state_flags L b tags) as [Hc Hs].
  destruct (image_exif_outcome L b (before_exif L b))
    as [e He | tags' Ht' Hraw | tags' f lat lon lat' lon' Ht' Hraw Hlat Hlon Sa So
        | tags' f lat lon Ht' Hraw Hlat Hlon Hneg];
    try (rewrite Ht in He; discriminate He);
    rewrite Ht in Ht'; injection Ht' as <-.
  - cbn [no_gps_state presence]. split; assumption.
  - cbn [gps_state presence]. lookup_key. split; assumption.
  - cbn [exif_error_state presence]. split; assumption.
Qed.

Lemma camera_and_timestamp_flags_witness :
  exists section report,
    extract_image_metadata (jpeg_libs (Ok south_malformed)) jpeg_bytes
    = Ok section
    /\ section !! "presence_report" = Some (VDict report)
    /\ report !! "camera_info" = Some (VBool false)
    /\ report !! "timestamp" = Some (VBool false).
Proof.
  exact (camera_and_timestamp_flags (jpeg_libs (Ok south_malformed))
           jpeg_bytes south_malformed eq_refl).
Defined.

Lemma flags_only_insert report k flag :
  k ∈ presence_keys -> flags_only report ->
  flags_only (<[k := VBool flag]> report).
Proof.
  intros Hk H k'. destruct (decide (k = k')) as [<-|Hne].
  - rewrite lookup_insert_eq. split; [eauto | contradiction].
  - rewrite lookup_insert_ne by exact Hne. apply H.
Qed.

Lemma presence_key_in k :
  k = "gps_data" \/ k = "camera_info" \/ k = "timestamp" -> k ∈ presence_keys.
Proof. unfold presence_keys. rewrite !elem_of_cons. tauto. Qed.

Lemma flags_only_fresh s : flags_only (presence (fresh_presence s)).
Proof.
  cbn [fresh_presence presence]. intros k. split.
  - intros Hk. unfold presence_keys in Hk. rewrite !elem_of_cons in Hk.
    destruct Hk as [ -> | [ -> | [ -> | Hk ] ] ];
      [exists false; reflexivity .. |].
    apply elem_of_nil in Hk. contradiction.
  - unfold presence_keys. rewrite !not_elem_of_cons. intros (? & ? & ? & _).
    rewrite !lookup_insert_ne, lookup_singleton_ne by congruence. reflexivity.
Qed.

Lemma flags_only_tags_state tags s :
  flags_only (presence s) -> flags_only (presence (tags_state tags s)).
Proof.
  intros H. cbn [tags_state presence].
  destruct (str_truthy _); destruct (str_truthy _ || str_truthy _); unfold id;
    repeat (apply flags_only_insert; [apply presence_key_in; tauto|]);
    exact H.
Qed.

(** X6. Every image section carries a presence report with a boolean
    under each of [gps_data], [camera_info] and [timestamp] and no other
    key; when the EXIF parser fails all three are false. *)
Theorem presence_report_shape L b :
  exists section report,
    extract_image_metadata L b = Ok section
    /\ section !! "presence_report" = Some (VDict report)
    /\ flags_only report
    /\ (raises (process_file L b) ->
        forall k, k ∈ presence_keys -> report !! k = Some (VBool false)).
Proof.
  eexists _, _. split; [apply extract_image_metadata_run|].
  split; [apply section_lookup_presence|].
  assert (flags_only (presence (before_exif L b))) as Hfresh
    by apply flags_only_fresh.
  destruct (image_exif_outcome L b (before_exif L b))
    as [e He | tags Ht Hraw | tags f lat lon lat' lon' Ht Hraw Hlat Hlon Sa So
        | tags f lat lon Ht Hraw Hlat Hlon Hneg].
  - cbn [exif_error_state presence]. split; [exact Hfresh|].
    intros _ k Hk. unfold presence_keys in Hk. rewrite !elem_of_cons in Hk.
    destruct Hk as [ -> | [ -> | [ -> | Hk ] ] ]; [reflexivity .. |].
    apply elem_of_nil in Hk. contradiction.
  - cbn [no_gps_state presence].
    split; [apply flags_only_tags_state, Hfresh|].
    intros [e He]. rewrite Ht in He. discriminate He.
  - cbn [gps_state presence]. split.
    + apply flags_only_insert; [apply presence_key_in; tauto|].
      apply flags_only_tags_state, Hfresh.
    + intros [e He]. rewrite Ht in He. discriminate He.
  - cbn [exif_error_state presence].
    split; [apply flags_only_tags_state, Hfresh|].
    intros [e He]. rewrite Ht in He. discriminate He.
Qed.

(** ** The fields of the image section *)

(** X7. When the EXIF tags are parsed, [raw_exif] holds exactly the tags
    the parser returned, each under its own name and by its text. *)
Theorem raw_exif_is_the_tags L b tags :
  process_file L b = Ok tags ->
  exists section raw,
    extract_image_metadata L b = Ok section
    /\ section !! "raw_exif" = Some (VDict raw)
    /\ forall name,
         raw !! name = (fun tag => VStr (printable tag)) <$> tags !! name.
Proof.
  intros Ht. eexists _, _. split; [apply extract_image_metadata_run|]. split.
  - rewrite section_lookup_info by discriminate.
    rewrite (image_exif_parsed_info _ _ _ _ _ Ht) by discriminate.
    cbn [tags_state info]. lookup_key. reflexivity.
  - intros name. rewrite !lookup_fmap.
    destruct (tags !! name); reflexivity.
Qed.

Lemma raw_exif_is_the_tags_witness :
  exists section raw,
    extract_image_metadata (jpeg_libs (Ok pittsburgh)) jpeg_bytes = Ok section
    /\ section !! "raw_exif" = Some (VDict raw)
    /\ raw !! "GPS GPSLatitudeRef" = Some (VStr "N")
    /\ raw !! "Image Make" = None.
Proof.
  destruct (raw_exif_is_the_tags (jpeg_libs (Ok pittsburgh)) jpeg_bytes
              pittsburgh eq_refl) as (section & raw & Hs & Hr & Hraw).
  exists section, raw. split; [exact Hs|]. split; [exact Hr|].
  rewrite !Hraw. split; vm_compute; reflexivity.
Defined.

(** X8. A tag that is present with an empty text: the make, the model and
    the capture time fall back to ["Unknown"], as for an absent tag, while
    the software stays the empty string. *)
Theorem empty_tag_text L b tags :
  process_file L b = Ok tags ->
  exists section,
    extract_image_metadata L b = Ok section
    /\ (has_text tags "Image Make" = false ->
        section !! "camera_make" = Some (VStr "Unknown"))
    /\ (has_text tags "Image Model" = false ->
        section !! "camera_model" = Some (VStr "Unknown"))
    /\ (has_text tags "EXIF DateTimeOriginal" = false ->
        section !! "datetime_original" = Some (VStr "Unknown"))
    /\ (forall tag, tags !! "Image Software" = Some tag ->
          section !! "software" = Some (VStr (printable tag)))
    /\ (tags !! "Image Software" = None ->
        section !! "software" = Some (VStr "Unknown")).
Proof.
  intros Ht. eexists. split; [apply extract_image_metadata_run|].
  rewrite !section_lookup_info by discriminate.
  rewrite !(image_exif_parsed_info _ _ _ _ _ Ht) by discriminate.
  cbn [tags_state info]. lookup_key.
  assert (forall name, has_text tags name = false ->
                       or_default ((printable <$> tags) !! name) "Unknown"
                       = "Unknown") as Hdefault.
  { intros name. unfold has_text. rewrite lookup_fmap.
    destruct (tags !! name) as [tag|]; cbn; [|reflexivity].
    destruct (printable tag); [reflexivity|discriminate]. }
  repeat split.
  - intros H. rewrite (Hdefault _ H). reflexivity.
  - intros H. rewrite (Hdefault _ H). reflexivity.
  - intros H. rewrite (Hdefault _ H). reflexivity.
  - intros tag H. rewrite lookup_fmap, H. reflexivity.
  - intros H. rewrite lookup_fmap, H. reflexivity.
Qed.

Lemma empty_tag_text_witness :
  exists section,
    extract_image_metadata
      (jpeg_libs (Ok {[ "Image Make" := ascii_tag "";
                        "Image Software" := ascii_tag "" ]})) jpeg_bytes
    = Ok section
    /\ section !! "camera_make" = Some (VStr "Unknown")
    /\ section !! "software" = Some (VStr "").
Proof.
  destruct (empty_tag_text
              (jpeg_libs (Ok {[ "Image Make" := ascii_tag "";
                                "Image Software" := ascii_tag "" ]}))
              jpeg_bytes _ eq_refl)
    as (section & Hs & Hmake & _ & _ & Hsoft & _).
  exists section. split; [exact Hs|]. split.
  - apply Hmake. vm_compute. reflexivity.
  - apply (Hsoft (ascii_tag "")). vm_compute. reflexivity.
Defined.

(** X9. The section has [image_error] exactly when the image cannot be
    opened, and [format], [size] and [mode] exactly when it can; this does
    not depend on what the EXIF parser does. *)
Theorem image_error_or_basics L b :
  exists section,
    extract_image_metadata L b = Ok section
    /\ (is_Some (section !! "image_error") <-> raises (Image_open L b))
    /\ (forall k, k = "format" \/ k = "size" \/ k = "mode" ->
          is_Some (section !! k) <-> returns (Image_open L b)).
Proof.
  eexists. split; [apply extract_image_metadata_run|].
  unfold raises, returns. split.
  - rewrite section_lookup_info by discriminate.
    rewrite image_exif_preserves by (apply not_exif_key; tauto).
    unfold before_exif. cbn [fresh_presence info].
    destruct (Image_open L b) as [img|e]; cbn [basics_state info]; lookup_key.
    + rewrite lookup_empty. split; intros [? H]; discriminate H.
    + split; eauto.
  - intros k Hk.
    rewrite section_lookup_info
      by (destruct Hk as [ -> | [ -> | -> ] ]; discriminate).
    rewrite image_exif_preserves by (apply not_exif_key; tauto).
    unfold before_exif. cbn [fresh_presence info].
    destruct (Image_open L b) as [img|e]; cbn [basics_state info];
      destruct Hk as [ -> | [ -> | -> ] ]; lookup_key;
      try rewrite lookup_empty;
      split; intros [? H]; try discriminate H; eauto.
Qed.

(** ** The PDF, document and audio extractors *)

(** X10. The PDF extractor reports the page count and the document
    information (empty when the file has none); when the reader cannot open
    the buffer the result is [pdf_error] alone; when the metadata cannot be
    read after the pages were counted, the page count is kept next to
    [pdf_error]. *)
Theorem pdf_outcomes L b :
  (forall e, PdfReader L b = Raise e ->
     extract_pdf_metadata L b = Ok {[ "pdf_error" := VStr (str_exn e) ]})
  /\ (forall reader n metadata,
        PdfReader L b = Ok reader ->
        pdf_num_pages reader = Ok n ->
        pdf_metadata reader = Ok metadata ->
        extract_pdf_metadata L b
        = Ok (<["document_info" := VDict (default ∅ metadata)]>
              {[ "num_pages" := VInt n ]}))
  /\ (forall reader n e,
        PdfReader L b = Ok reader ->
        pdf_num_pages reader = Ok n ->
        pdf_metadata reader = Raise e ->
        extract_pdf_metadata L b
        = Ok (<["pdf_error" := VStr (str_exn e)]>
              {[ "num_pages" := VInt n ]})).
Proof.
  unfold extract_pdf_metadata, extract_pdf_metadata_body.
  split; [|split].
  - intros e H. run. rewrite H. run. reflexivity.
  - intros reader n metadata H Hn Hm. run. rewrite H. run. rewrite Hn. run.
    rewrite Hm. run. reflexivity.
  - intros reader n e H Hn Hm. run. rewrite H. run. rewrite Hn. run.
    rewrite Hm. run. reflexivity.
Qed.

Lemma pdf_outcomes_witness :
  extract_pdf_metadata document_libs [] 
  = Ok (<["pdf_error" := VStr "bad /Info"]> {[ "num_pages" := VInt 2 ]}).
Proof.
  destruct (pdf_outcomes document_libs []) as (_ & _ & H).
  apply (H pdf_reader_2_pages 2 (mk_exn "PdfReadError" "bad /Info"));
    reflexivity.
Defined.

(** X11. The document extractor reports author, title and the two dates as
    strings, a missing date as the string ["None"]; when the document cannot
    be opened the result is [docx_error] alone. *)
Theorem docx_outcomes L b :
  (forall e, Document L b = Raise e ->
     extract_docx_metadata L b = Ok {[ "docx_error" := VStr (str_exn e) ]})
  /\ (forall core, Document L b = Ok core ->
        exists section,
          extract_docx_metadata L b = Ok section
          /\ section !! "author" = Some (VStr (author core))
          /\ section !! "title" = Some (VStr (title core))
          /\ section !! "created"
             = Some (VStr (match created core with
                           | Some date => date
                           | None => "None"
                           end))
          /\ section !! "modified"
             = Some (VStr (match modified core with
                           | Some date => date
                           | None => "None"
                           end))
          /\ section !! "docx_error" = None).
Proof.
  unfold extract_docx_metadata, extract_docx_metadata_body. split.
  - intros e H. run. rewrite H. run. reflexivity.
  - intros core H. run. rewrite H. run. eexists. split; [reflexivity|].
    unfold str_date. lookup_key.
    destruct (created core), (modified core); cbn [default];
      repeat split; try reflexivity; apply lookup_empty.
Qed.

Lemma docx_outcomes_witness :
  exists section,
    extract_docx_metadata document_libs [] = Ok section
    /\ section !! "created" = Some (VStr "None")
    /\ section !! "modified" = Some (VStr "2024-01-02 03:04:05").
Proof.
  destruct (docx_outcomes document_libs []) as (_ & H).
  destruct (H _ eq_refl) as (section & Hs & _ & _ & Hc & Hm & _).
  exists section. repeat split; assumption.
Defined.

(** X12. The audio extractor reports nothing, and no error, for a file
    mutagen does not recognise and for one whose [audio] object is falsy,
    even when its length is known; for a truthy one it reports the tags
    (empty when there are none) and the length; a failure gives
    [audio_error] alone. *)
Theorem audio_outcomes L b :
  (forall e, MutagenFile L b = Raise e ->
     extract_audio_metadata L b = Ok {[ "audio_error" := VStr (str_exn e) ]})
  /\ (MutagenFile L b = Ok None -> extract_audio_metadata L b = Ok ∅)
  /\ (forall audio, MutagenFile L b = Ok (Some audio) ->
        audio_truthy audio = false ->
        extract_audio_metadata L b = Ok ∅)
  /\ (forall audio, MutagenFile L b = Ok (Some audio) ->
        audio_truthy audio = true ->
        extract_audio_metadata L b
        = Ok (<["length" := float_or_none (audio_length audio)]>
              {[ "tags" := VDict (default ∅ (audio_tags audio)) ]})).
Proof.
  unfold extract_audio_metadata, extract_audio_metadata_body.
  split; [|split; [|split]].
  - intros e H. run. rewrite H. run. reflexivity.
  - intros H. run. rewrite H. run. reflexivity.
  - intros audio H Hf. run. rewrite H. run. rewrite Hf. run. reflexivity.
  - intros audio H Hf. run. rewrite H. run. rewrite Hf. run. reflexivity.
Qed.

Lemma audio_outcomes_witness : extract_audio_metadata document_libs [] = Ok ∅.
Proof.
  destruct (audio_outcomes document_libs []) as (_ & _ & H & _).
  apply (H {| audio_truthy := false; audio_tags := None;
              audio_length := Some 3%float |}); reflexivity.
Defined.

(** ** The dispatcher's report *)

Lemma report_form L b :
  exists report,
    extract_metadata L b = Ok report
    /\ ((categorise (sniff_mime L b) = cat_image
         /\ exists section,
              report = <["summary" := VDict (summary L section)]>
                       (<["image" := VDict section]>
                        {[ "mime" := VStr (sniff_mime L b) ]}))
        \/ (categorise (sniff_mime L b) <> cat_image
            /\ exists v,
                 report = <[section_key (categorise (sniff_mime L b)) := v]>
                          {[ "mime" := VStr (sniff_mime L b) ]})).
Proof.
  unfold categorise.
  destruct (startswith (sniff_mime L b) "image/") eqn:Hi.
  { destruct (extract_metadata_image L b Hi) as (section & Hs & ->).
    eexists. split; [reflexivity|]. left. eauto. }
  unfold extract_metadata. rewrite Hi.
  destruct (String.eqb (sniff_mime L b) "application/pdf").
  { destruct (extract_pdf_metadata_returns L b) as [section ->]. res_run.
    eexists. split; [reflexivity|]. right. split; [discriminate|]. eauto. }
  destruct (contains "wordprocessingml" (sniff_mime L b)).
  { destruct (extract_docx_metadata_returns L b) as [section ->]. res_run.
    eexists. split; [reflexivity|]. right. split; [discriminate|]. eauto. }
  destruct (startswith (sniff_mime L b) "audio/").
  { destruct (extract_audio_metadata_returns L b) as [section ->]. res_run.
    eexists. split; [reflexivity|]. right. split; [discriminate|]. eauto. }
  eexists. split; [reflexivity|]. right. split; [discriminate|]. eauto.
Qed.

Lemma two_keys (mime v : pyval) key k :
  is_Some ((<[key := v]> ({[ "mime" := mime ]} : dict)) !! k)
  <-> k = "mime" \/ k = key.
Proof.
  destruct (decide (key = k)) as [<-|Hk].
  - rewrite lookup_insert_eq. split; eauto.
  - rewrite lookup_insert_ne by exact Hk.
    destruct (decide ("mime" = k)) as [<-|Hm].
    + rewrite lookup_singleton_eq. split; eauto.
    + rewrite lookup_singleton_ne by exact Hm.
      split; [intros H; apply is_Some_None in H; contradiction|].
      intros [H|H]; congruence.
Qed.

Lemma report_mime L b report :
  extract_metadata L b = Ok report ->
  report !! "mime" = Some (VStr (sniff_mime L b))
  /\ forall k,
       is_Some (report !! k)
       <-> k = "mime"
           \/ k = section_key (categorise (sniff_mime L b))
           \/ (categorise (sniff_mime L b) = cat_image /\ k = "summary").
Proof.
  intros Hr.
  destruct (report_form L b)
    as (report0 & Hr0 & [(Hc & section & ->) | (Hc & v & ->)]);
    rewrite Hr in Hr0; injection Hr0 as ->.
  - split; [lookup_key; reflexivity|]. intros k.
    rewrite Hc. cbn [section_key].
    destruct (decide ("summary" = k)) as [<-|Hk].
    + rewrite lookup_insert_eq. split; eauto.
    + rewrite lookup_insert_ne by exact Hk. rewrite two_keys.
      split; [tauto|]. intros [H|[H|[_ H]]]; [tauto|tauto|congruence].
  - split.
    + destruct (categorise (sniff_mime L b)); cbn [section_key];
        lookup_key; reflexivity.
    + intros k. rewrite two_keys. split; [tauto|].
      intros [H|[H|[H _]]]; [tauto|tauto|contradiction].
Qed.

(** X13. The keys of a report are [mime], the key of the sniffed type's
    category and, for an image only, [summary]; a report has no other
    key. *)
Theorem report_keys L b :
  exists report,
    extract_metadata L b = Ok report
    /\ forall k,
         is_Some (report !! k)
         <-> k = "mime"
             \/ k = section_key (categorise (sniff_mime L b))
             \/ (categorise (sniff_mime L b) = cat_image /\ k = "summary").
Proof.
  destruct (extract_metadata_returns L b) as [report Hr].
  exists report. split; [exact Hr|].
  apply (report_mime L b report Hr).
Qed.

(** X14. Only the first 65536 bytes reach the sniffer: bytes appended to a
    buffer of at least that length change neither the sniffed type nor the
    keys of the report. *)
Theorem sniff_window L b rest :
  (Z.to_nat 65536 <= length b)%nat ->
  sniff_mime L (b ++ rest) = sniff_mime L b
  /\ exists report report',
       extract_metadata L b = Ok report
       /\ extract_metadata L (b ++ rest) = Ok report'
       /\ report' !! "mime" = report !! "mime"
       /\ forall k, is_Some (report' !! k) <-> is_Some (report !! k).
Proof.
  intros Hlen.
  assert (sniff_mime L (b ++ rest) = sniff_mime L b) as Hsniff.
  { unfold sniff_mime. f_equal. apply take_app_le. exact Hlen. }
  split; [exact Hsniff|].
  destruct (extract_metadata_returns L b) as [report Hr].
  destruct (extract_metadata_returns L (b ++ rest)) as [report' Hr'].
  destruct (report_mime _ _ _ Hr) as [Hm Hk].
  destruct (report_mime _ _ _ Hr') as [Hm' Hk'].
  exists report, report'. split; [exact Hr|]. split; [exact Hr'|]. split.
  - rewrite Hm, Hm', Hsniff. reflexivity.
  - intros k. rewrite Hk, Hk', Hsniff. reflexivity.
Qed.

Lemma sniff_window_witness :
  sniff_mime png_libs (replicate (Z.to_nat 65536) Byte.x00 ++ png_bytes)
  = sniff_mime png_libs (replicate (Z.to_nat 65536) Byte.x00).
Proof.
  apply (sniff_window png_libs (replicate (Z.to_nat 65536) Byte.x00) png_bytes).
  rewrite length_replicate. apply Nat.le_refl.
Defined.

(** ** The stripper *)

(** X15. The [info] dictionary of the decoded copy never reaches the
    encoder: two sets of decoders that agree on opening, converting and
    saving, and whose copies differ in [info] only, strip to the same
    result. *)
Theorem strip_ignores_info L L' b :
  Image_open L b = Image_open L' b ->
  (forall img, scrubbed (Image_copy L img) = scrubbed (Image_copy L' img)) ->
  (forall img mode, Image_convert L img mode = Image_convert L' img mode) ->
  (forall img params, Image_save L img params = Image_save L' img params) ->
  strip_image_metadata L b = strip_image_metadata L' b.
Proof.
  intros Ho Hc Hv Hs. rewrite !strip_image_metadata_run. f_equal.
  unfold decode_and_reencode. rewrite <- Ho.
  destruct (Image_open L b) as [img|e]; res_run; [|reflexivity].
  specialize (Hc img).
  destruct (Image_copy L img) as [copied|e],
    (Image_copy L' img) as [copied'|e']; cbn [scrubbed] in Hc; res_run;
    try discriminate Hc.
  - assert (set_img_info copied' ∅ = set_img_info copied ∅) as ->
      by congruence.
    cbv zeta.
    destruct (String.eqb (format_name img) "PNG"); [apply Hs|].
    destruct (alpha_or_palette _); res_run.
    + rewrite <- Hv. destruct (Image_convert L _ "RGB"); res_run;
        [apply Hs | reflexivity].
    + apply Hs.
  - injection Hc as <-. reflexivity.
Qed.

Lemma strip_ignores_info_witness :
  strip_image_metadata png_libs png_bytes
  = strip_image_metadata
      {| magic_from_buffer := magic_from_buffer png_libs;
         Image_open := Image_open png_libs;
         Image_copy := fun img =>
           Ok (set_img_info img {[ "comment" := VStr "secret" ]});
         Image_convert := Image_convert png_libs;
         Image_save := Image_save png_libs;
         process_file := process_file png_libs;
         PdfReader := PdfReader png_libs;
         Document := Document png_libs;
         MutagenFile := MutagenFile png_libs;
         str_other := str_other png_libs |} png_bytes.
Proof.
  apply strip_ignores_info; reflexivity.
Defined.

(** ** The routes *)

(** X16. [extract_route] answers 400 with ["No file uploaded"] without a
    [file] part. With one, the extraction returns a report and never makes
    the view fail: the view answers 200 with that report when [jsonify] can
    serialise it, and fails with the exception of [jsonify] when it
    cannot. *)
Theorem extract_route_responses L serialise files :
  (files !! "file" = None ->
   extract_route L serialise files
   = Ok (jsonify {[ "error" := VStr "No file uploaded" ]} 400))
  /\ (forall f, files !! "file" = Some f ->
        exists report,
          extract_metadata L (content f) = Ok report
          /\ (serialise report = Ok tt ->
              extract_route L serialise files = Ok (jsonify report 200))
          /\ (forall e, serialise report = Raise e ->
                extract_route L serialise files = Raise e)).
Proof.
  unfold extract_route. split.
  - intros ->. reflexivity.
  - intros f ->. destruct (extract_metadata_returns L (content f)) as [r Hr].
    exists r. split; [exact Hr|]. rewrite Hr. res_run.
    split; [intros ->; reflexivity | intros e ->; reflexivity].
Qed.

Lemma extract_route_responses_witness :
  exists report,
    extract_metadata document_libs [] = Ok report
    /\ extract_route document_libs
         (fun _ => Raise (TypeError "Object of type TextFrame is not JSON serializable"))
         (upload None [])
       = Raise (TypeError "Object of type TextFrame is not JSON serializable")
    /\ extract_route document_libs (fun _ => Ok tt) (upload None [])
       = Ok (jsonify report 200).
Proof.
  destruct (extract_route_responses document_libs
              (fun _ => Raise (TypeError "Object of type TextFrame is not JSON serializable"))
              (upload None [])) as (_ & Hbad).
  destruct (extract_route_responses document_libs (fun _ => Ok tt)
              (upload None [])) as (_ & Hgood).
  destruct (Hbad {| filename := None; content := [] |} eq_refl)
    as (report & Hr & _ & Hraise).
  destruct (Hgood {| filename := None; content := [] |} eq_refl)
    as (report' & Hr' & Hok & _).
  rewrite Hr in Hr'. injection Hr' as <-.
  exists report. split; [exact Hr|]. split.
  - apply Hraise. reflexivity.
  - apply Hok. reflexivity.
Defined.

Lemma or_empty s : or_default (Some s) "" = s.
Proof. destruct s; reflexivity. Qed.

(** X17. [clean_file] never fails and answers in one of four ways: 400
    without a [file] part; 400 with ["Only image cleaning supported"] when
    the sniffed type is not an image, whatever the image decoder would do
    with the bytes; 500 with the stripper's message when stripping fails;
    otherwise the stripped bytes as an attachment under the sniffed type. *)
Theorem clean_file_responses L splitext files :
  (files !! "file" = None ->
   clean_file L splitext files
   = Ok (jsonify {[ "error" := VStr "No file uploaded" ]} 400))
  /\ (forall f, files !! "file" = Some f ->
        startswith (sniff_mime L (content f)) "image/" = false ->
        clean_file L splitext files
        = Ok (jsonify {[ "error" := VStr "Only image cleaning supported" ]}
                      400))
  /\ (forall f cause, files !! "file" = Some f ->
        startswith (sniff_mime L (content f)) "image/" = true ->
        decode_and_reencode L (content f) = Raise cause ->
        clean_file L splitext files
        = Ok (jsonify {[ "error" := VStr ("Failed to strip metadata: "
                                          +:+ str_exn cause) ]} 500))
  /\ (forall f cleaned, files !! "file" = Some f ->
        startswith (sniff_mime L (content f)) "image/" = true ->
        decode_and_reencode L (content f) = Ok cleaned ->
        exists name,
          clean_file L splitext files
          = Ok (send_file cleaned (sniff_mime L (content f)) true name)).
Proof.
  unfold clean_file. split; [|split; [|split]].
  - intros ->. reflexivity.
  - intros f -> Hi. rewrite or_empty, Hi. reflexivity.
  - intros f cause -> Hi Hc. rewrite or_empty, Hi. cbn [negb].
    rewrite strip_image_metadata_run, Hc. reflexivity.
  - intros f cleaned -> Hi Hc. rewrite or_empty, Hi. cbn [negb].
    rewrite strip_image_metadata_run, Hc. cbn [strip_outcome].
    destruct (splitext _) as [name ext]. eexists. reflexivity.
Qed.

Lemma clean_file_responses_witness :
  clean_file broken_libs split_at_dot (upload (Some "a.png") png_bytes)
  = Ok (jsonify {[ "error" := VStr "Failed to strip metadata: cannot identify image file" ]}
                500).
Proof.
  destruct (clean_file_responses broken_libs split_at_dot
              (upload (Some "a.png") png_bytes)) as (_ & _ & H & _).
  apply (H {| filename := Some "a.png"; content := png_bytes |} undecodable);
    reflexivity.
Defined.

(** X18. The name of the download: the uploaded name (["cleaned.jpg"]
    when the upload has none or an empty one) split by [os.path.splitext],
    with [_cleaned] inserted before the extension; a name without extension
    gets [.jpg] when the sniffed type is exactly [image/jpeg] and [.png]
    for every other type. *)
Theorem download_name_rule L splitext files f cleaned name ext :
  files !! "file" = Some f ->
  startswith (sniff_mime L (content f)) "image/" = true ->
  strip_image_metadata L (content f) = Ok cleaned ->
  splitext (match filename f with
            | Some (String c rest) => String c rest
            | _ => "cleaned.jpg"
            end) = (name, ext) ->
  exists download,
    clean_file L splitext files
    = Ok (send_file cleaned (sniff_mime L (content f)) true download)
    /\ (ext <> "" -> download = name +:+ "_cleaned" +:+ ext)
    /\ (ext = "" -> sniff_mime L (content f) = "image/jpeg" ->
        download = name +:+ "_cleaned.jpg")
    /\ (ext = "" -> sniff_mime L (content f) <> "image/jpeg" ->
        download = name +:+ "_cleaned.png").
Proof.
  intros Hf Hi Hs Hsplit. unfold clean_file.
  rewrite Hf, or_empty, Hi, Hs. cbn [negb].
  assert (or_default (filename f) "cleaned.jpg"
          = match filename f with
            | Some (String c rest) => String c rest
            | _ => "cleaned.jpg"
            end) as -> by reflexivity.
  rewrite Hsplit. eexists. split; [reflexivity|].
  split; [|split].
  - intros He. destruct ext; [contradiction|reflexivity].
  - intros -> ->. reflexivity.
  - intros -> Hm. apply String.eqb_neq in Hm. rewrite Hm. reflexivity.
Qed.

Lemma download_name_rule_witness :
  clean_file png_libs split_at_dot (upload None png_bytes)
  = Ok (send_file png_bytes "image/png" true "cleaned_cleaned.jpg").
Proof.
  destruct (download_name_rule png_libs split_at_dot
              (upload None png_bytes)
              {| filename := None; content := png_bytes |}
              png_bytes "cleaned" ".jpg"
              eq_refl eq_refl eq_refl eq_refl)
    as (download & Hr & Hext & _).
  rewrite Hr, Hext by discriminate. reflexivity.
Defined.

(** X19. An image that is not a PNG is re-encoded as JPEG, and the route
    serves those JPEG bytes under the sniffed type of the upload, whatever
    that type and the uploaded name are; when the type is not [image/jpeg]
    and the name has no extension, the JPEG bytes are named [.png]. *)
Theorem jpeg_bytes_served_under_upload_type L splitext files f img copied
    rgb cleaned :
  files !! "file" = Some f ->
  startswith (sniff_mime L (content f)) "image/" = true ->
  Image_open L (content f) = Ok img ->
  format_name img <> "PNG" ->
  Image_copy L img = Ok copied ->
  (if alpha_or_palette (img_mode copied)
   then Image_convert L (set_img_info copied ∅) "RGB"
   else Ok (set_img_info copied ∅)) = Ok rgb ->
  Image_save L rgb
    {| save_format := "JPEG"; save_quality := Some 95;
       save_optimize := true |} = Ok cleaned ->
  exists download,
    clean_file L splitext files
    = Ok (send_file cleaned (sniff_mime L (content f)) true download)
    /\ (forall name,
          splitext (match filename f with
                    | Some (String c rest) => String c rest
                    | _ => "cleaned.jpg"
                    end) = (name, "") ->
          sniff_mime L (content f) <> "image/jpeg" ->
          download = name +:+ "_cleaned.png").
Proof.
  intros Hf Hi Ho Hfmt Hc Hrgb Hsave. unfold clean_file.
  rewrite Hf, or_empty, Hi. cbn [negb].
  rewrite strip_image_metadata_run. unfold decode_and_reencode.
  rewrite Ho. res_run. rewrite Hc. res_run. cbv zeta.
  apply String.eqb_neq in Hfmt. rewrite Hfmt.
  cbn [set_img_info img_mode]. cbn [set_img_info] in Hrgb.
  rewrite Hrgb. res_run. rewrite Hsave. cbn [strip_outcome].
  assert (or_default (filename f) "cleaned.jpg"
          = match filename f with
            | Some (String c rest) => String c rest
            | _ => "cleaned.jpg"
            end) as -> by reflexivity.
  destruct (splitext _) as [name ext]. eexists. split; [reflexivity|].
  intros name' [= <- ->] Hm. apply String.eqb_neq in Hm. rewrite Hm.
  reflexivity.
Qed.

Lemma jpeg_bytes_served_under_upload_type_witness :
  clean_file gif_libs split_at_dot (upload (Some "anim.gif") gif_bytes)
  = Ok (send_file jpeg_bytes "image/gif" true "anim_cleaned.gif")
  /\ clean_file gif_libs split_at_dot (upload (Some "anim") gif_bytes)
     = Ok (send_file jpeg_bytes "image/gif" true "anim_cleaned.png").
Proof.
  split.
  - destruct (jpeg_bytes_served_under_upload_type gif_libs split_at_dot
                (upload (Some "anim.gif") gif_bytes)
                {| filename := Some "anim.gif"; content := gif_bytes |}
                frame frame
                {| img_format := None; img_size := (2, 2); img_mode := "RGB";
                   img_info := ∅; img_pixels := [] |}
                jpeg_bytes eq_refl eq_refl eq_refl ltac:(discriminate)
                eq_refl eq_refl eq_refl) as (download & Hr & _).
    rewrite Hr. injection Hr as <-. reflexivity.
  - destruct (jpeg_bytes_served_under_upload_type gif_libs split_at_dot
                (upload (Some "anim") gif_bytes)
                {| filename := Some "anim"; content := gif_bytes |}
                frame frame
                {| img_format := None; img_size := (2, 2); img_mode := "RGB";
                   img_info := ∅; img_pixels := [] |}
                jpeg_bytes eq_refl eq_refl eq_refl ltac:(discriminate)
                eq_refl eq_refl eq_refl) as (download & Hr & Hname).
    rewrite Hr, (Hname "anim" eq_refl ltac:(discriminate)). reflexivity.
Defined.
